(** * webdirlisting: a directory-listing HTTP server (main.py)

    A shallow embedding of [main.py] and the properties of its path
    resolver, listing renderer, request parser, response builder and method
    dispatch.

    Conventions of the embedding.
    - The platform is POSIX: [os.path] is [posixpath] and [os.sep] is "/".
    - A Python [bytes] value is a [string] (a sequence of 8-bit characters).
    - A Python [str] value is represented by its UTF-8 encoding, with the bytes
      that [os.fsdecode] escapes (surrogateescape) kept as they are.  So
      [bytes.decode()] is the identity on valid UTF-8 and raises otherwise, and
      [str.encode()] is the identity on valid UTF-8 and raises on an escaped
      byte.  Every string operation of the program ([split], [strip],
      [startswith], [rfind], slicing behind a prefix, [replace] of the
      separator, concatenation around ASCII text) acts on ASCII characters
      only, so it commutes with this representation.
    - Exceptions are values of [exn]; a computation that can raise returns a
      [result].
    - The file system is read through [os.path.exists], [os.path.isdir] and
      [os.listdir] only; it is a function from path names to what is found
      there.
    - [HTTPServer.headers] is a mutable dictionary shared by all calls: it
      lives in a store of dictionaries, and [dict.copy] allocates. *)

From Stdlib Require Import String Ascii List ZArith Lia Bool DecimalString.
From stdpp Require Import base list strings.

Local Open Scope Z_scope.

(** ** Python values *)

Definition bytes := string.
Definition str := string.

Inductive exn : Type :=
  | FileNotFoundError
  | NotADirectoryError
  | AttributeError
  | KeyError
  | IndexError
  | RecursionError
  | UnicodeDecodeError
  | TypeError
  | PermissionError
  | OSError
  | UnicodeEncodeError.

#[global] Instance exn_eq_dec : EqDecision exn.
Proof. solve_decision. Defined.

Inductive result (A : Type) : Type :=
  | Ok (a : A)
  | Raise (e : exn).
Arguments Ok {A} a.
Arguments Raise {A} e.

Definition rbind {A B} (r : result A) (k : A -> result B) : result B :=
  match r with
  | Ok a => k a
  | Raise e => Raise e
  end.

Definition CR : ascii := "013"%char.
Definition LF : ascii := "010"%char.
Definition CRLF : string := String CR (String LF EmptyString).
Definition DQUOTE : string := String "034"%char EmptyString.

(** ** String primitives of Python used by the program *)

Module Py.

(** [bool(s)] of a string: true iff it is not empty. *)
Definition truthy (s : string) : bool :=
  match s with
  | EmptyString => false
  | String _ _ => true
  end.

Definition startswith (s p : string) : bool := String.prefix p s.

Fixpoint endswith_char (s : string) (c : ascii) : bool :=
  match s with
  | EmptyString => false
  | String a EmptyString => Ascii.eqb a c
  | String _ s' => endswith_char s' c
  end.

(** [s[n:]] for [0 <= n]. *)
Fixpoint drop (n : nat) (s : string) : string :=
  match n, s with
  | O, _ => s
  | S _, EmptyString => EmptyString
  | S k, String _ s' => drop k s'
  end.

(** [s[:n]] for [0 <= n]. *)
Fixpoint take (n : nat) (s : string) : string :=
  match n, s with
  | O, _ => EmptyString
  | S _, EmptyString => EmptyString
  | S k, String a s' => String a (take k s')
  end.

(** [c * n] for a one-character string [c]. *)
Fixpoint repeat_char (c : ascii) (n : nat) : string :=
  match n with
  | O => EmptyString
  | S k => String c (repeat_char c k)
  end.

(** [s.rfind(c)]: the highest index of [c] in [s], or [-1]. *)
Fixpoint rfind_from (c : ascii) (s : string) (i last : Z) : Z :=
  match s with
  | EmptyString => last
  | String a s' => rfind_from c s' (i + 1) (if Ascii.eqb a c then i else last)
  end.

Definition rfind (s : string) (c : ascii) : Z := rfind_from c s 0 (-1).

(** [s.lstrip(c)], [s.rstrip(c)] and [s.strip(c)] for a one-character [c]. *)
Fixpoint lstrip (s : string) (c : ascii) : string :=
  match s with
  | EmptyString => EmptyString
  | String a s' => if Ascii.eqb a c then lstrip s' c else s
  end.

Fixpoint rstrip (s : string) (c : ascii) : string :=
  match s with
  | EmptyString => EmptyString
  | String a s' =>
      match rstrip s' c with
      | EmptyString => if Ascii.eqb a c then EmptyString else String a EmptyString
      | r => String a r
      end
  end.

Definition strip (s : string) (c : ascii) : string := rstrip (lstrip s c) c.

(** [s.replace(old, new)] for a one-character [old]. *)
Fixpoint replace (s : string) (old : ascii) (new : string) : string :=
  match s with
  | EmptyString => EmptyString
  | String a s' =>
      if Ascii.eqb a old then new +:+ replace s' old new
      else String a (replace s' old new)
  end.

(** [s.split(sep)] for a non-empty separator: [skip] counts the characters
    of a separator already matched that are still to be passed over. *)
Fixpoint split_from (sep : string) (skip : nat) (s : string) : list string :=
  match s with
  | EmptyString => [EmptyString]
  | String a s' =>
      match skip with
      | S k => split_from sep k s'
      | O =>
          if String.prefix sep s
          then EmptyString :: split_from sep (String.length sep - 1) s'
          else
            match split_from sep O s' with
            | w :: ws => String a w :: ws
            | [] => [String a EmptyString]
            end
      end
  end.

Definition split (s sep : string) : list string := split_from sep O s.

(** [sep.join(l)]. *)
Fixpoint join (sep : string) (l : list string) : string :=
  match l with
  | [] => EmptyString
  | [x] => x
  | x :: l' => x +:+ sep +:+ join sep l'
  end.

(** ['%s' % n] for an integer. *)
Definition str_of_int (n : Z) : str := NilZero.string_of_int (Z.to_int n).

(** The strict UTF-8 codec: [pending] continuation bytes are still due, the
    next one within [lo..hi]. *)
Fixpoint utf8_scan (pending : nat) (lo hi : N) (s : string) : bool :=
  match s with
  | EmptyString => Nat.eqb pending 0
  | String a s' =>
      let b := N_of_ascii a in
      match pending with
      | S k => ((lo <=? b) && (b <=? hi))%N && utf8_scan k 128 191 s'
      | O =>
          if (b <? 128)%N then utf8_scan 0 128 191 s'
          else if ((194 <=? b) && (b <=? 223))%N then utf8_scan 1 128 191 s'
          else if (b =? 224)%N then utf8_scan 2 160 191 s'
          else if ((225 <=? b) && (b <=? 236))%N then utf8_scan 2 128 191 s'
          else if (b =? 237)%N then utf8_scan 2 128 159 s'
          else if ((238 <=? b) && (b <=? 239))%N then utf8_scan 2 128 191 s'
          else if (b =? 240)%N then utf8_scan 3 144 191 s'
          else if ((241 <=? b) && (b <=? 243))%N then utf8_scan 3 128 191 s'
          else if (b =? 244)%N then utf8_scan 3 128 143 s'
          else false
      end
  end.

Definition utf8_valid (s : string) : bool := utf8_scan 0 128 191 s.

(** [b.decode()] *)
Definition decode (b : bytes) : result str :=
  if utf8_valid b then Ok b else Raise UnicodeDecodeError.

(** [s.encode()] *)
Definition encode (s : str) : result bytes :=
  if utf8_valid s then Ok s else Raise UnicodeEncodeError.

End Py.

(** ** [os.path] on POSIX ([posixpath]) *)

Module os.

Definition sep : ascii := "/"%char.
Definition sep_str : string := String sep EmptyString.

(** [posixpath.join(a, b)] *)
Definition path_join (a b : str) : str :=
  if Py.startswith b sep_str then b
  else if negb (Py.truthy a) || Py.endswith_char a sep then a +:+ b
  else a +:+ sep_str +:+ b.

(** [posixpath.dirname(p)] *)
Definition path_dirname (p : str) : str :=
  let i := Py.rfind p sep + 1 in
  let head := Py.take (Z.to_nat i) p in
  if Py.truthy head
     && negb (String.eqb head (Py.repeat_char sep (String.length head)))
  then Py.rstrip head sep
  else head.

(** [posixpath.normpath(path)], used to say where a path points. *)
Definition normpath_step (initial_slashes : nat) (new_comps : list str)
    (comp : str) : list str :=
  if String.eqb comp "" || String.eqb comp "." then new_comps
  else if negb (String.eqb comp "..")
          || (Nat.eqb initial_slashes 0 && Nat.eqb (List.length new_comps) 0)
          || match last new_comps with
             | Some l => String.eqb l ".."
             | None => false
             end
  then new_comps ++ [comp]
  else removelast new_comps.

Definition path_normpath (path : str) : str :=
  if negb (Py.truthy path) then "."
  else
    let initial_slashes :=
      if Py.startswith path sep_str then
        if Py.startswith path (sep_str +:+ sep_str)
           && negb (Py.startswith path (sep_str +:+ sep_str +:+ sep_str))
        then 2%nat else 1%nat
      else 0%nat in
    let comps := Py.split path sep_str in
    let new_comps := fold_left (normpath_step initial_slashes) comps [] in
    let path := Py.join sep_str new_comps in
    let path := Py.repeat_char sep initial_slashes +:+ path in
    if Py.truthy path then path else ".".

(** What a path name leads to, when it leads anywhere: something that is
    not a directory; a directory with the names in it, in the order
    [listdir] gives them; or a directory that [listdir] cannot enumerate and
    for which it raises [e] (PermissionError when the directory cannot be
    read, or another OSError). *)
Inductive node : Type :=
  | NonDirectory
  | Directory (entries : list str)
  | Unlistable (e : exn).

(** The file system as the program sees it. *)
Definition filesystem := str -> option node.

Definition path_exists (fs : filesystem) (p : str) : bool :=
  match fs p with
  | Some _ => true
  | None => false
  end.

Definition path_isdir (fs : filesystem) (p : str) : bool :=
  match fs p with
  | Some (Directory _) => true
  | Some (Unlistable _) => true
  | _ => false
  end.

Definition listdir (fs : filesystem) (p : str) : result (list str) :=
  match fs p with
  | Some (Directory entries) => Ok entries
  | Some (Unlistable e) => Raise e
  | Some NonDirectory => Raise NotADirectoryError
  | None => Raise FileNotFoundError
  end.

End os.


(** ** Dictionaries and the store of shared dictionaries *)

(** A Python [dict] with string keys and values, in insertion order. *)
Definition dict := list (str * str).

Module Dict.

Fixpoint get (d : dict) (k : str) : option str :=
  match d with
  | [] => None
  | (k', v) :: d' => if String.eqb k' k then Some v else get d' k
  end.

(** [d[k] = v]: an existing key keeps its place, a new one goes last. *)
Fixpoint set (d : dict) (k v : str) : dict :=
  match d with
  | [] => [(k, v)]
  | (k', v') :: d' =>
      if String.eqb k' k then (k', v) :: d' else (k', v') :: set d' k v
  end.

(** [d.update(e)] *)
Definition update (d e : dict) : dict :=
  fold_left (fun acc kv => set acc (fst kv) (snd kv)) e d.

Definition keys (d : dict) : list str := map fst d.

Definition truthy (d : dict) : bool :=
  match d with
  | [] => false
  | _ :: _ => true
  end.

End Dict.

Definition loc := nat.
Definition store := list dict.

(** Computations that read and write the store and may raise. *)
Definition M (A : Type) : Type := store -> result A * store.

Definition ret {A} (a : A) : M A := fun st => (Ok a, st).
Definition raise {A} (e : exn) : M A := fun st => (Raise e, st).
Definition lift {A} (r : result A) : M A := fun st => (r, st).

Definition bind {A B} (m : M A) (k : A -> M B) : M B :=
  fun st =>
    match m st with
    | (Ok a, st') => k a st'
    | (Raise e, st') => (Raise e, st')
    end.

(** [try: m  except e: handler] *)
Definition try_except {A} (m : M A) (e : exn) (handler : M A) : M A :=
  fun st =>
    match m st with
    | (Ok a, st') => (Ok a, st')
    | (Raise e', st') =>
        if bool_decide (e' = e) then handler st' else (Raise e', st')
    end.

Declare Scope py_scope.
Delimit Scope py_scope with py.
Notation "'do' x <- m ; k" := (bind m (fun x => k))
  (at level 10, x name, m at level 100, k at level 200) : py_scope.
Notation "'do' x <~ r ; k" := (rbind r (fun x => k))
  (at level 10, x name, r at level 100, k at level 200) : py_scope.

Definition read (l : loc) : M dict :=
  fun st =>
    match st !! l with
    | Some d => (Ok d, st)
    | None => (Raise AttributeError, st)
    end.

(** A new dictionary object. *)
Definition alloc (d : dict) : M loc :=
  fun st => (Ok (List.length st), st ++ [d]).

Definition write (l : loc) (d : dict) : M unit :=
  fun st => (Ok tt, <[l := d]> st).

Local Open Scope py_scope.

(** ** class DirListing *)

Module DirListing.

Record t : Type := {
  dir_path : str;
  is_root_dir : bool;
  parent_dir : str
}.

Section Env.
Variable fs : os.filesystem.
(** [os.getcwd()], the same at every call. *)
Variable getcwd : str.

Definition __url_path_to_dir_path (url_path : str) : str :=
  let url_path :=
    if Py.truthy url_path then url_path +:+ os.sep_str else url_path in
  let dir_path := os.path_dirname (os.path_join getcwd url_path) in
  dir_path.

Definition __dir_path_to_url_path (dir_path : str) : str :=
  let url_path := "" in
  let prefix := getcwd in
  let url_path :=
    if Py.startswith dir_path prefix
    then Py.replace (Py.drop (String.length prefix) dir_path) os.sep "/"
    else url_path in
  let url_path := if negb (Py.truthy url_path) then "/" else url_path in
  url_path.

Definition __init__ (url_path : str) : result t :=
  let dir_path := __url_path_to_dir_path url_path in
  if negb (os.path_exists fs dir_path) then Raise FileNotFoundError
  else
    let is_root_dir := String.eqb url_path "" in
    let parent_dir :=
      if negb is_root_dir then os.path_dirname dir_path else "" in
    Ok {| dir_path := dir_path;
          is_root_dir := is_root_dir;
          parent_dir := parent_dir |}.

(** One turn of the loop over [files]: [html] is the text so far. *)
Definition listing_step (self : t) (html : str) (f : str) : str :=
  if Py.startswith f "." then html
  else
    let f :=
      if os.path_isdir fs (os.path_join (dir_path self) f) then
        let subdir_path := os.path_join (dir_path self) f in
        let url_path_sub := __dir_path_to_url_path subdir_path in
        "<a href=" +:+ DQUOTE +:+ url_path_sub +:+ DQUOTE +:+ ">"
          +:+ f +:+ "/</a>"
      else f in
    let f := f +:+ "<br>" in
    html +:+ f.

Definition get_hyperlinked_dir_listing (self : t) : result str :=
  let html := "<html><body>" in
  let html :=
    if negb (is_root_dir self) then
      let parent_url := __dir_path_to_url_path (parent_dir self) in
      html +:+ ("<a href=" +:+ DQUOTE +:+ parent_url +:+ DQUOTE
                  +:+ ">[parent directory]</a><br>")
    else html in
  do files <~ os.listdir fs (dir_path self);
  let html := fold_left (listing_step self) files html in
  let html := html +:+ "</body></html>" in
  Ok html.

End Env.

End DirListing.

(** ** class HTTPRequest *)

Module HTTPRequest.

(** [http_version] holds the [str] it starts with or the [bytes] of the
    third word. *)
Inductive version : Type :=
  | VStr (s : str)
  | VBytes (b : bytes).

Record t : Type := {
  method : option str;
  uri : option str;
  http_version : version
}.

(** What a caller may pass as [data]: the bytes read from the socket, or,
    when [handle_request] is reached as a handler, a request object. *)
Inductive data_arg : Type :=
  | Bytes (b : bytes)
  | Request (r : t).

Definition index0 {A} (l : list A) : result A :=
  match l with
  | x :: _ => Ok x
  | [] => Raise IndexError
  end.

Definition parse (self : t) (data : data_arg) : result t :=
  match data with
  | Request _ => Raise AttributeError (* no attribute [split] *)
  | Bytes data =>
      let lines := Py.split data CRLF in
      do request_line <~ index0 lines;
      let words := Py.split request_line " " in
      do w0 <~ index0 words;
      do m <~ Py.decode w0;
      let self := {| method := Some m; uri := uri self;
                     http_version := http_version self |} in
      do self <~
        (if (1 <? List.length words)%nat then
           match words with
           | _ :: w1 :: _ =>
               do u <~ Py.decode w1;
               Ok {| method := method self; uri := Some u;
                     http_version := http_version self |}
           | _ => Raise IndexError
           end
         else Ok self);
      if (2 <? List.length words)%nat then
        match words with
        | _ :: _ :: w2 :: _ =>
            Ok {| method := method self; uri := uri self;
                  http_version := VBytes w2 |}
        | _ => Raise IndexError
        end
      else Ok self
  end.

Definition __init__ (data : data_arg) : result t :=
  let self := {| method := None; uri := None; http_version := VStr "1.1" |} in
  parse self data.

End HTTPRequest.

(** ** class HTTPServer(TCPServer) *)

Module HTTPServer.

(** The class attribute [headers]: its place in the store, and the
    dictionary the class body puts there. *)
Definition headers : loc := 0%nat.

Definition headers_init : dict :=
  [("Server", "CrudeServer"); ("Content-Type", "text/html")].

Definition initial_store : store := [headers_init].

Definition status_codes : list (Z * str) :=
  [(200, "OK"); (404, "Not Found"); (501, "Not Implemented")].

Fixpoint status_codes_get (d : list (Z * str)) (k : Z) : result str :=
  match d with
  | [] => Raise KeyError
  | (k', v) :: d' => if k' =? k then Ok v else status_codes_get d' k
  end.

Definition response_line (status_code : Z) : M bytes :=
  do reason <- lift (status_codes_get status_codes status_code);
  let response_line :=
    "HTTP/1.1 " +:+ Py.str_of_int status_code +:+ " " +:+ reason +:+ CRLF in
  lift (Py.encode response_line).

(** One turn of [for h in headers_copy]. *)
Definition headers_step (headers_copy : dict) (acc : result str) (h : str)
    : result str :=
  do headers <~ acc;
  match Dict.get headers_copy h with
  | Some v => Ok (headers +:+ (h +:+ ": " +:+ v +:+ CRLF))
  | None => Raise KeyError
  end.

Definition response_headers (extra_headers : option dict) : M bytes :=
  do d <- read headers;
  do headers_copy <- alloc d;
  do _ <-
    match extra_headers with
    | Some e =>
        if Dict.truthy e then
          do c <- read headers_copy;
          write headers_copy (Dict.update c e)
        else ret tt
    | None => ret tt
    end;
  do c <- read headers_copy;
  do headers <- lift (fold_left (headers_step c) (Dict.keys c) (Ok ""));
  lift (Py.encode headers).

Section Env.
Variable fs : os.filesystem.
Variable getcwd : str.

Definition handle_GET (request : HTTPRequest.t) : M bytes :=
  do url_path <-
    match HTTPRequest.uri request with
    | Some uri => ret (Py.strip uri "/")
    | None => raise AttributeError (* [None] has no [strip] *)
    end;
  do parts <-
    try_except
      (do dl <- lift (DirListing.__init__ fs getcwd url_path);
       do response_line <- response_line 200;
       do response_headers <-
         response_headers (Some [("Content-Type", "text/html")]);
       do listing <- lift (DirListing.get_hyperlinked_dir_listing fs getcwd dl);
       do response_body <- lift (Py.encode listing);
       ret (response_line, response_headers, response_body))
      FileNotFoundError
      (do response_line <- response_line 404;
       do response_headers <- response_headers None;
       let response_body := "<h1>404 Not Found</h1>" in
       ret (response_line, response_headers, response_body));
  let '(response_line, response_headers, response_body) := parts in
  let blank_line := CRLF in
  let response :=
    response_line +:+ response_headers +:+ blank_line +:+ response_body in
  ret response.

Definition HTTP_501_handler (request : HTTPRequest.t) : M bytes :=
  do response_line <- response_line 501;
  do response_headers <- response_headers None;
  let blank_line := CRLF in
  let response_body := "<h1>501 Not Implemented</h1>" in
  ret (response_line +:+ response_headers +:+ blank_line +:+ response_body).

(** The attributes that the two classes and [TCPServer.__init__] give to a
    server object.  Those inherited from [object] all begin with "_". *)
Inductive attribute : Type :=
  | host
  | port
  | start
  | handle_request_attr
  | headers_attr
  | status_codes_attr
  | response_line_attr
  | response_headers_attr
  | handle_GET_attr
  | HTTP_501_handler_attr.

Definition attributes : list (str * attribute) :=
  [("host", host); ("port", port); ("start", start);
   ("handle_request", handle_request_attr);
   ("headers", headers_attr); ("status_codes", status_codes_attr);
   ("response_line", response_line_attr);
   ("response_headers", response_headers_attr);
   ("handle_GET", handle_GET_attr);
   ("HTTP_501_handler", HTTP_501_handler_attr)].

Fixpoint lookup_attribute (l : list (str * attribute)) (name : str)
    : result attribute :=
  match l with
  | [] => Raise AttributeError
  | (n, a) :: l' => if String.eqb n name then Ok a else lookup_attribute l' name
  end.

Definition getattr (name : str) : result attribute :=
  lookup_attribute attributes name.

(** ['%s' % x] where [x] is a string or [None]. *)
Definition percent_s (x : option str) : str :=
  match x with
  | Some s => s
  | None => "None"
  end.

(** [handler(request)].  [self_handle_request] is the method
    [handle_request] of the same object. *)
Definition call (self_handle_request : HTTPRequest.data_arg -> M bytes)
    (handler : attribute) (request : HTTPRequest.t) : M bytes :=
  match handler with
  | handle_GET_attr => handle_GET request
  | HTTP_501_handler_attr => HTTP_501_handler request
  | handle_request_attr => self_handle_request (HTTPRequest.Request request)
  | response_line_attr => raise KeyError
  | host | port | start | headers_attr | status_codes_attr
  | response_headers_attr => raise TypeError
  end.

Definition handle_request_body
    (self_handle_request : HTTPRequest.data_arg -> M bytes)
    (data : HTTPRequest.data_arg) : M bytes :=
  do request <- lift (HTTPRequest.__init__ data);
  let handler :=
    match getattr ("handle_" +:+ percent_s (HTTPRequest.method request)) with
    | Ok handler => handler
    | Raise _ => HTTP_501_handler_attr
    end in
  do response <- call self_handle_request handler request;
  ret response.

(** A call of [handle_request] from within itself receives a request
    object and raises in its first statement, before it could call itself
    again: two levels are all there is. *)
Definition handle_request (data : HTTPRequest.data_arg) : M bytes :=
  handle_request_body
    (handle_request_body (fun _ => raise RecursionError)) data.

End Env.

End HTTPServer.

(** The result of a computation, without the store it leaves. *)
Definition run {A} (m : M A) (st : store) : result A := fst (m st).

(** The store it leaves. *)
Definition exec {A} (m : M A) (st : store) : store := snd (m st).

(** The store after a series of calls of [response_headers], one for each
    argument of [extras], in that order. *)
Definition after_response_headers (extras : list (option dict)) (st : store)
    : store :=
  fold_left (fun st e => exec (HTTPServer.response_headers e) st) extras st.

(** ** class TCPServer *)

Module TCPServer.

(** [handle_request] of the base class: the data comes back as it is. *)
Definition handle_request (data : bytes) : M bytes := ret data.

(** [conn.recv(bufsize)], where [pending] is what the connection holds when
    it is read: at most [bufsize] of these bytes. *)
Definition recv (bufsize : nat) (pending : bytes) : bytes :=
  Py.take bufsize pending.

(** The loop of [start] over the connections that [accept] gives, in their
    order, each one standing for the bytes it holds when it is read.
    [handle_request] is the method of the object, that of the subclass when
    it overrides it.  The result has the responses sent, oldest first, the
    exception that ended the loop, if one did (nothing in [start] catches
    it, and the connections that follow are not served), and the store.
    The connections are those that are read and answered: [accept], [recv],
    [sendall] and [close] are taken to succeed, so the loop says nothing of a
    connection that fails in transport. *)
Fixpoint start (handle_request : bytes -> M bytes) (conns : list bytes)
    (st : store) : list bytes * option exn * store :=
  match conns with
  | [] => ([], None, st)
  | pending :: conns' =>
      let data := recv 1024 pending in
      match handle_request data st with
      | (Ok response, st') =>
          let '(sent, e, st'') := start handle_request conns' st' in
          (response :: sent, e, st'')
      | (Raise e, st') => ([], Some e, st')
      end
  end.

End TCPServer.

(** [start] on an [HTTPServer]. *)
Definition HTTPServer_start (fs : os.filesystem) (getcwd : str)
    : list bytes -> store -> list bytes * option exn * store :=
  TCPServer.start
    (fun data => HTTPServer.handle_request fs getcwd (HTTPRequest.Bytes data)).

(** ** A file system given as a tree *)

Module Tree.

#[warnings="-register-all"] Inductive tree : Type :=
  | File
  | Dir (children : list (str * tree)).

Fixpoint child (l : list (str * tree)) (name : str) : option tree :=
  match l with
  | [] => None
  | (n, t) :: l' => if String.eqb n name then Some t else child l' name
  end.

(** Follow the components of a path from [cur]; [up] holds the
    directories above it, nearest first. *)
Fixpoint walk (up : list tree) (cur : tree) (comps : list str) : option tree :=
  match comps with
  | [] => Some cur
  | c :: cs =>
      match cur with
      | File => None
      | Dir children =>
          if String.eqb c "" || String.eqb c "." then walk up cur cs
          else if String.eqb c ".." then
            match up with
            | [] => walk [] cur cs
            | p :: up' => walk up' p cs
            end
          else
            match child children c with
            | Some t => walk (cur :: up) t cs
            | None => None
            end
      end
  end.

(** Absolute path names only: the program builds no other. *)
Definition to_fs (root : tree) : os.filesystem :=
  fun p =>
    if Py.startswith p os.sep_str then
      match walk [] root (Py.split p os.sep_str) with
      | Some File => Some os.NonDirectory
      | Some (Dir children) => Some (os.Directory (map fst children))
      | None => None
      end
    else None.

End Tree.

(** A small site: the server runs in /srv/www, next to /srv/secret.txt. *)
Module Demo.

Definition www : Tree.tree :=
  Tree.Dir [("a.txt", Tree.File); ("sub", Tree.Dir [("deep", Tree.Dir [])]);
            (".hidden", Tree.File)].

Definition root : Tree.tree :=
  Tree.Dir [("srv", Tree.Dir [("www", www); ("secret.txt", Tree.File)])].

Definition fs : os.filesystem := Tree.to_fs root.
Definition cwd : str := "/srv/www".

(** The same site served from the top of the file system. *)
Definition top : Tree.tree :=
  Tree.Dir [("a.txt", Tree.File); ("sub", Tree.Dir [("deep", Tree.Dir [])])].

Definition top_fs : os.filesystem := Tree.to_fs top.

(** The site with one more directory, /srv/www/locked, which the server may
    not read. *)
Definition locked_fs : os.filesystem :=
  fun p =>
    if String.eqb p "/srv/www/locked" then Some (os.Unlistable PermissionError)
    else fs p.

Definition get (uri : str) : HTTPRequest.t :=
  {| HTTPRequest.method := Some "GET";
     HTTPRequest.uri := Some uri;
     HTTPRequest.http_version := HTTPRequest.VBytes "HTTP/1.1" |}.

End Demo.

(** ** The behaviour in the words of the specification

    These definitions say what a listing and a header block are meant to
    contain; the properties below compare the program with them. *)

Module Spec.

Definition concat_str (l : list str) : str :=
  fold_right String.append "" l.

(** An HTML hyperlink. *)
Definition link (href text : str) : str :=
  "<a href=" +:+ DQUOTE +:+ href +:+ DQUOTE +:+ ">" +:+ text +:+ "</a>".

Definition hidden (name : str) : bool := Py.startswith name ".".

Definition visible (name : str) : bool := negb (hidden name).

Section Env.
Variable fs : os.filesystem.
Variable root : str.

Definition resolve : str -> str := DirListing.__url_path_to_dir_path root.
Definition unresolve : str -> str := DirListing.__dir_path_to_url_path root.

(** The line of one entry of the directory [dir]. *)
Definition entry_line (dir name : str) : str :=
  let full := os.path_join dir name in
  if os.path_isdir fs full
  then link (unresolve full) (name +:+ "/") +:+ "<br>"
  else name +:+ "<br>".

(** One line for each entry that is not hidden, in enumeration order. *)
Definition entry_lines (dir : str) (files : list str) : list str :=
  map (entry_line dir) (List.filter visible files).

(** The parent links of the listing of [url_path]. *)
Definition parent_lines (url_path : str) : list str :=
  if String.eqb url_path "" then []
  else [link (unresolve (os.path_dirname (resolve url_path)))
             "[parent directory]" +:+ "<br>"].

Definition page (lines : list str) : str :=
  "<html><body>" +:+ concat_str lines +:+ "</body></html>".

(** The path lies in the root directory once normalized. *)
Definition inside_root (p : str) : bool :=
  let n := os.path_normpath p in
  String.eqb n root
  || Py.startswith n
       (if Py.endswith_char root os.sep then root else root +:+ os.sep_str).

End Env.

(** What [os.getcwd()] returns: an absolute path name that does not end
    with the separator, or "/" itself. *)
Definition getcwd_form (cwd : str) : bool :=
  Py.startswith cwd os.sep_str
  && (String.eqb cwd os.sep_str || negb (Py.endswith_char cwd os.sep)).

(** The root directory, then the separator unless it is there already. *)
Definition root_prefix (root : str) : str :=
  if negb (Py.truthy root) || Py.endswith_char root os.sep then root
  else root +:+ os.sep_str.

(** The responses with a fixed body. *)
Definition not_found_response : bytes :=
  "HTTP/1.1 404 Not Found" +:+ CRLF
    +:+ "Server: CrudeServer" +:+ CRLF
    +:+ "Content-Type: text/html" +:+ CRLF
    +:+ CRLF
    +:+ "<h1>404 Not Found</h1>".

Definition not_implemented_response : bytes :=
  "HTTP/1.1 501 Not Implemented" +:+ CRLF
    +:+ "Server: CrudeServer" +:+ CRLF
    +:+ "Content-Type: text/html" +:+ CRLF
    +:+ CRLF
    +:+ "<h1>501 Not Implemented</h1>".

(** The extra headers of a call, none when the argument is absent. *)
Definition overrides (extra_headers : option dict) : dict :=
  match extra_headers with
  | Some e => e
  | None => []
  end.

(** Key-wise replacement: every base entry keeps its place and takes the
    extra value for its key when there is one; the extra entries with new
    keys follow. *)
Definition merge (base extra : dict) : dict :=
  map (fun kv =>
         match Dict.get extra (fst kv) with
         | Some v => (fst kv, v)
         | None => kv
         end) base
  ++ List.filter
       (fun kv => negb (bool_decide (fst kv ∈ Dict.keys base))) extra.

Definition header_line (kv : str * str) : str :=
  fst kv +:+ ": " +:+ snd kv +:+ CRLF.

Definition header_block (d : dict) : str :=
  concat_str (map header_line d).

End Spec.

(** ** Words for the further properties *)

Module Text.

(** [pat] occurs somewhere in [s]. *)
Fixpoint occurs (pat s : string) : bool :=
  String.prefix pat s
  || match s with
     | EmptyString => false
     | String _ s' => occurs pat s'
     end.

(** A token of a request line: no space and no CR LF in it. *)
Definition token (t : string) : bool :=
  negb (occurs " " t) && negb (occurs CRLF t).

(** Every byte is below 128. *)
Fixpoint is_ascii (s : string) : bool :=
  match s with
  | EmptyString => true
  | String a s' => (N_of_ascii a <? 128)%N && is_ascii s'
  end.

End Text.

Module Wire.

(** The header block of every response of the server. *)
Definition base_headers : bytes :=
  "Server: CrudeServer" +:+ CRLF +:+ "Content-Type: text/html" +:+ CRLF.

Definition status_lines : list bytes :=
  ["HTTP/1.1 200 OK"; "HTTP/1.1 404 Not Found"; "HTTP/1.1 501 Not Implemented"].

(** A response: status line, header block, blank line, body. *)
Definition response (status_line body : bytes) : bytes :=
  status_line +:+ CRLF +:+ base_headers +:+ CRLF +:+ body.

(** What [except FileNotFoundError] in [handle_GET] makes of an exception. *)
Definition recover (e : exn) : result bytes :=
  if bool_decide (e = FileNotFoundError) then Ok Spec.not_found_response
  else Raise e.

(** What a loop makes of the outcomes of the requests, taken one after the
    other: the responses up to the first exception, and that exception. *)
Fixpoint served (outcomes : list (result bytes)) : list bytes * option exn :=
  match outcomes with
  | [] => ([], None)
  | Ok response :: rest =>
      let '(sent, e) := served rest in (response :: sent, e)
  | Raise e :: _ => ([], Some e)
  end.

End Wire.

(** The computation changes no dictionary of the store: it only adds new
    ones behind those that are there. *)
Definition grows {A} (m : M A) : Prop :=
  forall st, exists added, exec m st = st ++ added.

(** * Properties *)

#[local] Arguments String.append !_ _ / : simpl nomatch.

(** ** Strings *)

Section StringFacts.

Lemma append_nil_r (s : string) : s +:+ "" = s.
Proof. induction s as [|a s IH]; simpl; [reflexivity | now rewrite IH]. Qed.

Lemma append_assoc (s1 s2 s3 : string) :
  (s1 +:+ s2) +:+ s3 = s1 +:+ (s2 +:+ s3).
Proof. induction s1 as [|a s1 IH]; simpl; [reflexivity | now rewrite IH]. Qed.

Lemma length_append (s1 s2 : string) :
  String.length (s1 +:+ s2) = (String.length s1 + String.length s2)%nat.
Proof. induction s1 as [|a s1 IH]; simpl; [reflexivity | now rewrite IH]. Qed.

Lemma prefix_append (p s : string) : String.prefix p (p +:+ s) = true.
Proof.
  induction p as [|a p IH]; simpl.
  - now destruct s.
  - destruct (ascii_dec a a); [exact IH | congruence].
Qed.

Lemma drop_append (p s : string) : Py.drop (String.length p) (p +:+ s) = s.
Proof. induction p as [|a p IH]; simpl; [now destruct s | exact IH]. Qed.

Lemma take_all (s : string) : Py.take (String.length s) s = s.
Proof. induction s as [|a s IH]; simpl; [reflexivity | now rewrite IH]. Qed.

Lemma replace_sep_id (s : string) : Py.replace s os.sep "/" = s.
Proof.
  induction s as [|a s IH]; simpl; [reflexivity|].
  destruct (Ascii.eqb_spec a os.sep) as [->|_]; simpl; now rewrite IH.
Qed.

Lemma concat_str_app (l1 l2 : list str) :
  Spec.concat_str (l1 ++ l2) = Spec.concat_str l1 +:+ Spec.concat_str l2.
Proof.
  induction l1 as [|x l1 IH]; simpl; [reflexivity|].
  now rewrite IH, append_assoc.
Qed.

Lemma endswith_char_app (s t : string) (c : ascii) :
  t <> "" -> Py.endswith_char (s +:+ t) c = Py.endswith_char t c.
Proof.
  intros Ht. induction s as [|a s IH]; [reflexivity|].
  cbn [String.append]. cbn [Py.endswith_char]. rewrite IH.
  destruct (s +:+ t) eqn:Hst; [|reflexivity].
  destruct s; [simpl in Hst; congruence | discriminate].
Qed.

Lemma rfind_from_snoc (c : ascii) (s : string) (i last : Z) :
  Py.rfind_from c (s +:+ String c "") i last = i + Z.of_nat (String.length s).
Proof.
  revert i last. induction s as [|a s IH]; intros i last.
  - simpl. rewrite Ascii.eqb_refl. lia.
  - cbn [String.append Py.rfind_from String.length]. rewrite IH. lia.
Qed.

Lemma rstrip_snoc (s : string) (c : ascii) :
  Py.rstrip (s +:+ String c "") c = Py.rstrip s c.
Proof.
  induction s as [|a s IH].
  - simpl. now rewrite Ascii.eqb_refl.
  - cbn [String.append Py.rstrip]. now rewrite IH.
Qed.

Lemma rstrip_id (s : string) (c : ascii) :
  Py.endswith_char s c = false -> Py.rstrip s c = s.
Proof.
  induction s as [|a s IH]; [reflexivity|].
  cbn [Py.endswith_char Py.rstrip]. destruct s as [|b s].
  - intros ->. reflexivity.
  - intros H. now rewrite (IH H).
Qed.

Lemma rstrip_repeat (c : ascii) (n : nat) :
  Py.rstrip (Py.repeat_char c n) c = "".
Proof.
  induction n as [|n IH]; [reflexivity|].
  cbn [Py.repeat_char Py.rstrip]. now rewrite IH, Ascii.eqb_refl.
Qed.

Lemma rstrip_no_sep (s : string) (c : ascii) :
  Py.endswith_char (Py.rstrip s c) c = false.
Proof.
  induction s as [|a s IH]; [reflexivity|].
  cbn [Py.rstrip]. destruct (Py.rstrip s c) as [|b r] eqn:Hr.
  - destruct (Ascii.eqb a c) eqn:Hac; [reflexivity|].
    cbn [Py.endswith_char]. exact Hac.
  - exact IH.
Qed.

Lemma lstrip_no_sep (s : string) (c : ascii) :
  Py.startswith (Py.lstrip s c) (String c "") = false.
Proof.
  induction s as [|a s IH]; [reflexivity|].
  cbn [Py.lstrip]. destruct (Ascii.eqb_spec a c) as [->|Hne]; [exact IH|].
  unfold Py.startswith. cbn [String.prefix].
  destruct (ascii_dec c a); [congruence | reflexivity].
Qed.

Lemma rstrip_keeps_head (s : string) (c : ascii) :
  Py.startswith s (String c "") = false ->
  Py.startswith (Py.rstrip s c) (String c "") = false.
Proof.
  destruct s as [|a s]; [reflexivity|].
  unfold Py.startswith. cbn [String.prefix Py.rstrip].
  destruct (ascii_dec c a) as [->|Hne]; [now destruct s|].
  intros _. destruct (Py.rstrip s c).
  - destruct (Ascii.eqb_spec a c); [congruence|].
    cbn [String.prefix]. destruct (ascii_dec c a); [congruence|reflexivity].
  - cbn [String.prefix]. destruct (ascii_dec c a); [congruence|reflexivity].
Qed.

(** What [strip] leaves neither begins nor ends with the character. *)
Lemma strip_no_sep (s : string) (c : ascii) :
  Py.startswith (Py.strip s c) (String c "") = false
  /\ Py.endswith_char (Py.strip s c) c = false.
Proof.
  unfold Py.strip. split.
  - apply rstrip_keeps_head, lstrip_no_sep.
  - apply rstrip_no_sep.
Qed.

End StringFacts.

(** ** The path resolver *)

Section Paths.

(** [dirname] of a path that ends with one separator after something that
    does not: the path without that separator. *)
Lemma dirname_snoc (x : str) :
  x <> "" -> Py.endswith_char x os.sep = false ->
  os.path_dirname (x +:+ os.sep_str) = x.
Proof.
  intros Hx Hend. unfold os.path_dirname, Py.rfind, os.sep_str.
  rewrite rfind_from_snoc.
  replace (Z.to_nat (0 + Z.of_nat (String.length x) + 1))
    with (String.length (x +:+ String os.sep "")).
  2:{ rewrite length_append. simpl. lia. }
  rewrite take_all.
  assert (Hr : Py.rstrip (x +:+ String os.sep "") os.sep = x)
    by now rewrite rstrip_snoc, rstrip_id.
  destruct (String.eqb_spec (x +:+ String os.sep "")
              (Py.repeat_char os.sep (String.length (x +:+ String os.sep ""))))
    as [Heq|_].
  - rewrite Heq, rstrip_repeat in Hr. congruence.
  - destruct x; [congruence|]. exact Hr.
Qed.

Lemma path_join_relative (a b : str) :
  Py.startswith b os.sep_str = false ->
  os.path_join a b =
  (if negb (Py.truthy a) || Py.endswith_char a os.sep then a
   else a +:+ os.sep_str) +:+ b.
Proof.
  intros Hb. unfold os.path_join. rewrite Hb.
  destruct (negb (Py.truthy a) || Py.endswith_char a os.sep); [reflexivity|].
  now rewrite append_assoc.
Qed.

Variable cwd : str.

(** A non-empty URL path that neither begins nor ends with "/" resolves
    to the root, a separator and the URL path as it is. *)
Lemma resolve_stripped (u : str) :
  u <> "" ->
  Py.startswith u os.sep_str = false ->
  Py.endswith_char u os.sep = false ->
  DirListing.__url_path_to_dir_path cwd u = Spec.root_prefix cwd +:+ u.
Proof.
  intros Hu Hhead Hend. unfold DirListing.__url_path_to_dir_path.
  destruct u as [|a u]; [congruence|]. cbn [Py.truthy].
  rewrite path_join_relative.
  2:{ unfold Py.startswith, os.sep_str in *.
      cbn [String.append String.prefix] in *.
      destruct (ascii_dec os.sep a); [now destruct u | reflexivity]. }
  fold (Spec.root_prefix cwd). rewrite <- append_assoc.
  apply dirname_snoc.
  - destruct (Spec.root_prefix cwd); discriminate.
  - now rewrite endswith_char_app.
Qed.

Lemma resolve_empty :
  Spec.getcwd_form cwd = true ->
  DirListing.__url_path_to_dir_path cwd "" = cwd.
Proof.
  unfold Spec.getcwd_form. intros H.
  apply andb_prop in H as [Habs H]. apply orb_prop in H as [H|H].
  - apply String.eqb_eq in H. now subst cwd.
  - apply negb_true_iff in H.
    unfold DirListing.__url_path_to_dir_path. cbn [Py.truthy].
    rewrite path_join_relative by reflexivity. rewrite append_nil_r.
    rewrite H. destruct cwd as [|a r] eqn:Hcwd; [discriminate|].
    cbn [Py.truthy negb orb]. now apply dirname_snoc.
Qed.

(** [unresolve] of a path that begins with the root: what follows the
    root, or "/" when nothing does. *)
Lemma unresolve_under_root (r : str) :
  DirListing.__dir_path_to_url_path cwd (cwd +:+ r) =
  if Py.truthy r then r else "/".
Proof.
  unfold DirListing.__dir_path_to_url_path, Py.startswith.
  rewrite prefix_append, drop_append, replace_sep_id.
  now destruct r.
Qed.

(** [unresolve] gives "/" for a path that does not begin with the root, and
    for the root itself. *)
Lemma unresolve_fallback (dir_path : str) :
  (Py.startswith dir_path cwd = false ->
   DirListing.__dir_path_to_url_path cwd dir_path = "/")
  /\ DirListing.__dir_path_to_url_path cwd cwd = "/".
Proof.
  split.
  - intros H. unfold DirListing.__dir_path_to_url_path. now rewrite H.
  - rewrite <- (append_nil_r cwd) at 2. now rewrite unresolve_under_root.
Qed.

(** X15.  Away from the top of the file system, [unresolve] undoes
    [resolve]: a URL path comes back stripped of "/" at both ends, behind one
    "/". *)
Lemma unresolve_resolve (uri : str) :
  Spec.getcwd_form cwd = true -> cwd <> "/" ->
  DirListing.__dir_path_to_url_path cwd
    (DirListing.__url_path_to_dir_path cwd (Py.strip uri "/"))
  = "/" +:+ Py.strip uri "/".
Proof.
  intros Hform Hne. destruct (strip_no_sep uri "/") as [Hhead Hend].
  destruct (Py.strip uri "/") as [|a u] eqn:Hu.
  - rewrite (resolve_empty Hform). apply unresolve_fallback. exact "".
  - rewrite resolve_stripped by (assumption || discriminate).
    unfold Spec.getcwd_form in Hform.
    apply andb_prop in Hform as [Habs H]. apply orb_prop in H as [H|H].
    + apply String.eqb_eq in H. contradiction.
    + apply negb_true_iff in H. unfold Spec.root_prefix. rewrite H.
      destruct cwd as [|c r] eqn:Hcwd; [discriminate|].
      cbn [Py.truthy negb orb]. rewrite <- Hcwd, append_assoc.
      now rewrite unresolve_under_root.
Qed.

End Paths.

(** ** The listing renderer *)

Section Listing.
Variable fs : os.filesystem.
Variable cwd : str.

(** A turn of the loop adds the line of a visible entry and nothing for a
    hidden one. *)
Lemma listing_step_line (self : DirListing.t) (html f : str) :
  DirListing.listing_step fs cwd self html f =
  html +:+ Spec.concat_str (Spec.entry_lines fs cwd (DirListing.dir_path self) [f]).
Proof.
  unfold DirListing.listing_step, Spec.entry_lines, Spec.visible, Spec.hidden.
  cbn [List.filter]. destruct (Py.startswith f ".");
    cbn [negb map Spec.concat_str fold_right].
  - now rewrite append_nil_r.
  - unfold Spec.entry_line, Spec.link, Spec.unresolve.
    destruct (os.path_isdir fs _); rewrite ?append_nil_r, ?append_assoc;
      reflexivity.
Qed.

Lemma entry_lines_cons (dir f : str) (files : list str) :
  Spec.entry_lines fs cwd dir (f :: files) =
  Spec.entry_lines fs cwd dir [f] ++ Spec.entry_lines fs cwd dir files.
Proof.
  unfold Spec.entry_lines. simpl. now destruct (Spec.visible f).
Qed.

Lemma listing_loop (self : DirListing.t) (files : list str) (html : str) :
  fold_left (DirListing.listing_step fs cwd self) files html =
  html +:+ Spec.concat_str (Spec.entry_lines fs cwd (DirListing.dir_path self) files).
Proof.
  revert html. induction files as [|f files IH]; intros html.
  - simpl. now rewrite append_nil_r.
  - cbn [fold_left].
    rewrite IH, listing_step_line, (entry_lines_cons _ f files).
    now rewrite concat_str_app, append_assoc.
Qed.

Lemma listing_page (self : DirListing.t) (files : list str) :
  os.listdir fs (DirListing.dir_path self) = Ok files ->
  DirListing.get_hyperlinked_dir_listing fs cwd self =
  Ok (Spec.page
        ((if DirListing.is_root_dir self then []
          else [Spec.link (Spec.unresolve cwd (DirListing.parent_dir self))
                          "[parent directory]" +:+ "<br>"])
         ++ Spec.entry_lines fs cwd (DirListing.dir_path self) files)).
Proof.
  intros Hls. unfold DirListing.get_hyperlinked_dir_listing.
  rewrite Hls. cbn [rbind]. rewrite listing_loop. f_equal.
  unfold Spec.page. rewrite concat_str_app.
  destruct (DirListing.is_root_dir self); cbn [negb app Spec.concat_str fold_right].
  - now rewrite !append_assoc.
  - unfold Spec.link, Spec.unresolve. now rewrite ?append_nil_r, !append_assoc.
Qed.

(** C6.  The listing of a directory is the page made of the parent part and
    of one line for each entry that [os.listdir] gives, in that order:
    nothing for a name that begins with ".", the name and a line break for
    any other entry that is not a directory, and for a directory a
    hyperlink to the unresolved full path around the name and "/", then a
    line break. *)
Theorem listing_renders_visible_entries (self : DirListing.t) (files : list str) :
  os.listdir fs (DirListing.dir_path self) = Ok files ->
  let dir := DirListing.dir_path self in
  let lines := Spec.entry_lines fs cwd dir in
  DirListing.get_hyperlinked_dir_listing fs cwd self =
    Ok ("<html><body>"
          +:+ Spec.concat_str
                ((if DirListing.is_root_dir self then []
                  else [Spec.link (Spec.unresolve cwd (DirListing.parent_dir self))
                                  "[parent directory]" +:+ "<br>"])
                 ++ lines files)
          +:+ "</body></html>")
  /\ lines [] = []
  /\ (forall name rest,
        Py.startswith name "." = true -> lines (name :: rest) = lines rest)
  /\ (forall name rest,
        Py.startswith name "." = false ->
        os.path_isdir fs (os.path_join dir name) = false ->
        lines (name :: rest) = (name +:+ "<br>") :: lines rest)
  /\ (forall name rest,
        Py.startswith name "." = false ->
        os.path_isdir fs (os.path_join dir name) = true ->
        lines (name :: rest) =
        ("<a href=" +:+ DQUOTE
           +:+ DirListing.__dir_path_to_url_path cwd (os.path_join dir name)
           +:+ DQUOTE +:+ ">" +:+ (name +:+ "/") +:+ "</a>" +:+ "<br>")
        :: lines rest).
Proof.
  intros Hls dir lines. split; [|split; [|split; [|split]]].
  - rewrite (listing_page self files Hls). reflexivity.
  - reflexivity.
  - intros name rest Hh. unfold lines, Spec.entry_lines, Spec.visible, Spec.hidden.
    cbn [List.filter]. now rewrite Hh.
  - intros name rest Hh Hd. unfold lines, Spec.entry_lines, Spec.visible, Spec.hidden.
    cbn [List.filter]. rewrite Hh. cbn [negb map]. unfold Spec.entry_line at 1.
    now rewrite Hd.
  - intros name rest Hh Hd. unfold lines, Spec.entry_lines, Spec.visible, Spec.hidden.
    cbn [List.filter]. rewrite Hh. cbn [negb map]. unfold Spec.entry_line at 1.
    rewrite Hd. unfold Spec.link, Spec.unresolve.
    now rewrite !append_assoc.
Qed.

(** C7.  When [DirListing(url_path)] succeeds, [is_root_dir] holds exactly
    when [url_path] is empty, and the listing is the page made of the parent
    links followed by the entry lines: no parent link for the empty
    [url_path], and otherwise exactly one, whose href is the unresolved
    parent ([os.path.dirname]) of the resolved directory. *)
Theorem listing_parent_link (url_path : str) (dl : DirListing.t)
    (files : list str) :
  DirListing.__init__ fs cwd url_path = Ok dl ->
  os.listdir fs (DirListing.dir_path dl) = Ok files ->
  (DirListing.is_root_dir dl = true <-> url_path = "")
  /\ DirListing.get_hyperlinked_dir_listing fs cwd dl =
     Ok (Spec.page
           (Spec.parent_lines cwd url_path
            ++ Spec.entry_lines fs cwd (DirListing.dir_path dl) files))
  /\ (url_path = "" -> Spec.parent_lines cwd url_path = [])
  /\ (url_path <> "" ->
      Spec.parent_lines cwd url_path =
      ["<a href=" +:+ DQUOTE
         +:+ DirListing.__dir_path_to_url_path cwd
               (os.path_dirname (DirListing.dir_path dl))
         +:+ DQUOTE +:+ ">" +:+ "[parent directory]" +:+ "</a>" +:+ "<br>"]).
Proof.
  intros Hinit Hls. pose proof (listing_page dl files Hls) as Hpage.
  unfold DirListing.__init__ in Hinit.
  destruct (negb (os.path_exists fs _)); [discriminate|].
  injection Hinit as <-.
  cbn [DirListing.is_root_dir DirListing.dir_path DirListing.parent_dir] in *.
  split; [apply String.eqb_eq|]. split; [|split].
  - rewrite Hpage. unfold Spec.parent_lines, Spec.resolve.
    now destruct (String.eqb url_path "").
  - intros ->. reflexivity.
  - intros Hne. unfold Spec.parent_lines, Spec.resolve, Spec.link, Spec.unresolve.
    apply String.eqb_neq in Hne. rewrite Hne.
    now rewrite !append_assoc.
Qed.

End Listing.

(** ** Dictionaries *)

Section DictFacts.

Lemma get_None (d : dict) (k : str) : Dict.get d k = None <-> k ∉ Dict.keys d.
Proof.
  induction d as [|[k' v'] d IH]; simpl.
  - split; [intros _; apply not_elem_of_nil | reflexivity].
  - rewrite not_elem_of_cons. destruct (String.eqb_spec k' k) as [->|Hne].
    + split; [discriminate | intros [[] _]; reflexivity].
    + rewrite IH. split; [intros H; split; [congruence | exact H] | intros [_ H]; exact H].
Qed.

Lemma get_In (d : dict) (k v : str) :
  NoDup (Dict.keys d) -> (k, v) ∈ d -> Dict.get d k = Some v.
Proof.
  induction d as [|[k' v'] d IH]; simpl; intros Hnd Hin.
  - now apply elem_of_nil in Hin.
  - apply NoDup_cons in Hnd as [Hk' Hnd]. apply elem_of_cons in Hin as [Heq|Hin].
    + injection Heq as -> ->. now rewrite String.eqb_refl.
    + destruct (String.eqb_spec k' k) as [->|Hne]; [|now apply IH].
      exfalso. apply Hk'. apply list_elem_of_fmap. now exists (k, v).
Qed.

Lemma set_new (d : dict) (k v : str) :
  k ∉ Dict.keys d -> Dict.set d k v = d ++ [(k, v)].
Proof.
  induction d as [|[k' v'] d IH]; simpl; intros Hk; [reflexivity|].
  apply not_elem_of_cons in Hk as [Hne Hk].
  destruct (String.eqb_spec k' k) as [->|_]; [congruence|].
  now rewrite IH.
Qed.

(** [d[k] = v] for a key that is there: the entry changes in place. *)
Lemma set_old (d : dict) (k v : str) :
  NoDup (Dict.keys d) -> k ∈ Dict.keys d ->
  Dict.set d k v =
  map (fun kv => if String.eqb (fst kv) k then (fst kv, v) else kv) d.
Proof.
  induction d as [|[k' v'] d IH]; simpl; intros Hnd Hk.
  - now apply elem_of_nil in Hk.
  - apply NoDup_cons in Hnd as [Hk' Hnd].
    destruct (String.eqb_spec k' k) as [->|Hne].
    + f_equal. symmetry. erewrite map_ext_in; [apply map_id|].
      intros [k2 v2] Hin. simpl.
      destruct (String.eqb_spec k2 k) as [->|_]; [|reflexivity].
      exfalso. apply Hk'. apply list_elem_of_fmap. exists (k, v2).
      split; [reflexivity | now apply list_elem_of_In].
    + apply elem_of_cons in Hk as [Heq|Hk]; [congruence|].
      now rewrite IH.
Qed.

Lemma keys_set_old (d : dict) (k v : str) :
  k ∈ Dict.keys d -> Dict.keys (Dict.set d k v) = Dict.keys d.
Proof.
  induction d as [|[k' v'] d IH]; simpl; intros Hk.
  - now apply elem_of_nil in Hk.
  - destruct (String.eqb_spec k' k) as [->|Hne]; [reflexivity|].
    apply elem_of_cons in Hk as [Heq|Hk]; [congruence|].
    simpl. f_equal. now apply IH.
Qed.

Lemma set_NoDup (d : dict) (k v : str) :
  NoDup (Dict.keys d) -> NoDup (Dict.keys (Dict.set d k v)).
Proof.
  intros Hnd. destruct (decide (k ∈ Dict.keys d)) as [Hin|Hout].
  - now rewrite keys_set_old.
  - rewrite set_new by assumption. unfold Dict.keys. rewrite map_app. simpl.
    apply NoDup_app. split; [exact Hnd|]. split.
    + intros x Hx Hx'. apply list_elem_of_singleton in Hx'. now subst.
    + apply NoDup_singleton.
Qed.

Lemma update_NoDup (e d : dict) :
  NoDup (Dict.keys d) -> NoDup (Dict.keys (Dict.update d e)).
Proof.
  unfold Dict.update. revert d.
  induction e as [|[k v] e IH]; simpl; intros d Hnd; [exact Hnd|].
  apply IH. now apply set_NoDup.
Qed.

Lemma merge_nil (d : dict) : Spec.merge d [] = d.
Proof.
  unfold Spec.merge. simpl. rewrite app_nil_r. apply map_id.
Qed.

(** The step of [update]: setting [k] and merging the rest is merging the
    whole. *)
Lemma merge_set (d e : dict) (k v : str) :
  NoDup (Dict.keys d) -> k ∉ Dict.keys e ->
  Spec.merge (Dict.set d k v) e = Spec.merge d ((k, v) :: e).
Proof.
  intros Hnd Hk. pose proof (proj2 (get_None e k) Hk) as Hget.
  destruct (decide (k ∈ Dict.keys d)) as [Hin|Hout].
  - unfold Spec.merge. rewrite (keys_set_old d k v Hin).
    rewrite (set_old d k v Hnd Hin), map_map. cbn [List.filter fst].
    rewrite (bool_decide_eq_true_2 _ Hin). cbn [negb]. f_equal.
    apply map_ext. intros [k2 v2]. cbn [fst snd Dict.get].
    rewrite (String.eqb_sym k k2).
    destruct (String.eqb_spec k2 k) as [->|Hne]; cbn [fst]; [now rewrite Hget|].
    reflexivity.
  - unfold Spec.merge. rewrite (set_new d k v Hout), map_app.
    cbn [map fst List.filter]. rewrite Hget.
    rewrite (bool_decide_eq_false_2 _ Hout). cbn [negb].
    rewrite <- app_assoc. cbn [app]. f_equal.
    + apply map_ext_in. intros [k2 v2] Hin2. cbn [fst snd Dict.get].
      destruct (String.eqb_spec k k2) as [<-|Hne]; [|reflexivity].
      exfalso. apply Hout. apply list_elem_of_fmap. exists (k, v2).
      split; [reflexivity | now apply list_elem_of_In].
    + f_equal. apply filter_ext_in. intros [k2 v2] Hin2. cbn [fst].
      f_equal. apply bool_decide_ext. unfold Dict.keys. rewrite map_app.
      rewrite elem_of_app. cbn [map fst]. rewrite list_elem_of_singleton.
      split; [intros [H|H]; [exact H|] | now left].
      exfalso. subst k2. apply Hk. apply list_elem_of_fmap. exists (k, v2).
      split; [reflexivity | now apply list_elem_of_In].
Qed.

(** [dict.update] is the key-wise replacement of the specification. *)
Lemma update_merge (e d : dict) :
  NoDup (Dict.keys d) -> NoDup (Dict.keys e) ->
  Dict.update d e = Spec.merge d e.
Proof.
  unfold Dict.update. revert d.
  induction e as [|[k v] e IH]; intros d Hd He.
  - now rewrite merge_nil.
  - cbn [fold_left fst snd]. cbn [Dict.keys map fst] in He.
    apply NoDup_cons in He as [Hk He].
    rewrite IH by (try apply set_NoDup; assumption).
    now apply merge_set.
Qed.

End DictFacts.

(** ** The response builder *)

Section Headers.

Lemma headers_loop (c d : dict) (acc : str) :
  (forall k v, (k, v) ∈ d -> Dict.get c k = Some v) ->
  fold_left (HTTPServer.headers_step c) (Dict.keys d) (Ok acc) =
  Ok (acc +:+ Spec.header_block d).
Proof.
  revert acc. induction d as [|[k v] d IH]; intros acc Hget.
  - simpl. now rewrite append_nil_r.
  - cbn [Dict.keys map fst fold_left]. unfold HTTPServer.headers_step at 2.
    cbn [rbind]. rewrite (Hget k v) by apply list_elem_of_here.
    fold (Dict.keys d). rewrite IH.
    + unfold Spec.header_block, Spec.header_line. cbn [map Spec.concat_str fold_right fst snd].
      now rewrite !append_assoc.
    + intros k' v' Hin. apply Hget. now apply list_elem_of_further.
Qed.

Lemma update_overrides_truthy (d e : dict) :
  (if Dict.truthy e then Dict.update d e else d) = Dict.update d e.
Proof. now destruct e. Qed.

(** What a call of [response_headers] returns and what it leaves in the
    store: the copy, with the overrides, as a new last dictionary. *)
Lemma response_headers_run (st : store) (extra : option dict) (d : dict) :
  st !! HTTPServer.headers = Some d ->
  let c := Dict.update d (Spec.overrides extra) in
  HTTPServer.response_headers extra st =
  (rbind (fold_left (HTTPServer.headers_step c) (Dict.keys c) (Ok ""))
         Py.encode,
   st ++ [c]).
Proof.
  intros Hd c. unfold HTTPServer.response_headers, bind, read, alloc.
  rewrite Hd.
  assert (Hlast : forall x : dict, (st ++ [x]) !! List.length st = Some x).
  { intros x. now apply list_lookup_middle. }
  assert (Hmid :
    match extra with
    | Some e =>
        if Dict.truthy e then
          bind (read (List.length st))
            (fun c0 => write (List.length st) (Dict.update c0 e))
        else ret tt
    | None => ret tt
    end (st ++ [d]) = (Ok tt, st ++ [c])).
  { subst c. destruct extra as [[|kv e]|]; try reflexivity.
    cbn [Dict.truthy Spec.overrides]. unfold bind, read, write.
    rewrite Hlast. f_equal.
    etransitivity;
      [apply (insert_app_r_alt st [d] (List.length st)); reflexivity|].
    now rewrite Nat.sub_diag. }
  unfold bind, read in Hmid. rewrite Hmid, Hlast. unfold lift, rbind.
  now destruct (fold_left _ _ _).
Qed.

Lemma response_headers_missing (st : store) (extra : option dict) :
  st !! HTTPServer.headers = None ->
  HTTPServer.response_headers extra st = (Raise AttributeError, st).
Proof.
  intros Hd. unfold HTTPServer.response_headers, bind, read. now rewrite Hd.
Qed.

Lemma response_headers_eval (st : store) (extra : option dict) (d : dict) :
  st !! HTTPServer.headers = Some d ->
  NoDup (Dict.keys d) ->
  let c := Dict.update d (Spec.overrides extra) in
  HTTPServer.response_headers extra st =
  (Py.encode (Spec.header_block c), st ++ [c]).
Proof.
  intros Hd Hnd c. rewrite (response_headers_run st extra d Hd).
  fold c. rewrite headers_loop; [reflexivity|].
  intros k v. apply get_In. subst c. now apply update_NoDup.
Qed.

Lemma headers_init_NoDup : NoDup (Dict.keys HTTPServer.headers_init).
Proof.
  apply (bool_decide_unpack _). vm_compute. exact I.
Qed.

(** C8.  With the class dictionary in its place, the header block of a call
    is the encoding of one line [Key: Value CR LF] for each entry of the
    merged mapping, in its order: Server, Content-Type, then the extra
    entries with other keys in the order of the extra mapping; Server and
    Content-Type carry the extra value when the extra mapping has that key,
    and their base value otherwise. *)
Theorem response_headers_block (st : store) (extra : option dict) :
  st !! HTTPServer.headers = Some HTTPServer.headers_init ->
  NoDup (Dict.keys (Spec.overrides extra)) ->
  let e := Spec.overrides extra in
  let merged := Spec.merge HTTPServer.headers_init e in
  run (HTTPServer.response_headers extra) st =
    Py.encode
      (Spec.concat_str
         (map (fun kv => fst kv +:+ ": " +:+ snd kv +:+ CRLF) merged))
  /\ merged =
     ("Server", default "CrudeServer" (Dict.get e "Server"))
     :: ("Content-Type", default "text/html" (Dict.get e "Content-Type"))
     :: List.filter
          (fun kv =>
             negb (bool_decide (fst kv ∈ ["Server"; "Content-Type"]))) e
  /\ (e = [] ->
      run (HTTPServer.response_headers extra) st =
      Ok ("Server: CrudeServer" +:+ CRLF +:+ "Content-Type: text/html" +:+ CRLF)).
Proof.
  intros Hst He e merged. unfold run.
  rewrite (response_headers_eval st extra _ Hst headers_init_NoDup).
  cbn [fst]. fold e. rewrite (update_merge e _ headers_init_NoDup He).
  fold merged. split; [reflexivity|]. split.
  - subst merged. unfold Spec.merge, HTTPServer.headers_init.
    cbn [map fst snd app Dict.keys].
    destruct (Dict.get e "Server"), (Dict.get e "Content-Type"); reflexivity.
  - intros Hnil. subst merged. rewrite Hnil. reflexivity.
Qed.

(** C10.  A call of [response_headers] leaves [HTTPServer.headers] as it
    was, whatever its extra headers, and so does any series of calls: what a
    later call returns is what it returns without the earlier ones.  The
    overrides go to a copy, which the call adds to the store. *)
Theorem response_headers_frame (st : store) (extra : option dict)
    (earlier : list (option dict)) :
  exec (HTTPServer.response_headers extra) st
    = match st !! HTTPServer.headers with
      | Some d => st ++ [Dict.update d (Spec.overrides extra)]
      | None => st
      end
  /\ exec (HTTPServer.response_headers extra) st !! HTTPServer.headers
     = st !! HTTPServer.headers
  /\ after_response_headers earlier st !! HTTPServer.headers
     = st !! HTTPServer.headers
  /\ run (HTTPServer.response_headers extra) (after_response_headers earlier st)
     = run (HTTPServer.response_headers extra) st.
Proof.
  assert (Hone : forall (s : store) (x : option dict),
    exec (HTTPServer.response_headers x) s !! HTTPServer.headers
    = s !! HTTPServer.headers).
  { intros s x. unfold exec.
    destruct (s !! HTTPServer.headers) as [d|] eqn:Hd.
    - rewrite (response_headers_run s x d Hd). cbn [snd].
      now apply lookup_app_l_Some.
    - rewrite (response_headers_missing s x Hd). exact Hd. }
  assert (Hmany : forall (l : list (option dict)) (s : store),
    after_response_headers l s !! HTTPServer.headers = s !! HTTPServer.headers).
  { induction l as [|x l IH]; intros s; [reflexivity|].
    unfold after_response_headers in *. cbn [fold_left].
    now rewrite IH, Hone. }
  split; [|split; [apply Hone|split; [apply Hmany|]]].
  { unfold exec. destruct (st !! HTTPServer.headers) as [d|] eqn:Hd.
    - now rewrite (response_headers_run st extra d Hd).
    - now rewrite (response_headers_missing st extra Hd). }
  specialize (Hmany earlier st). unfold run.
  destruct (st !! HTTPServer.headers) as [d|] eqn:Hd.
  - now rewrite (response_headers_run _ extra d Hmany),
      (response_headers_run _ extra d Hd).
  - now rewrite (response_headers_missing _ extra Hmany),
      (response_headers_missing _ extra Hd).
Qed.

End Headers.

(** ** Requests and responses *)

Section Server.
Variable fs : os.filesystem.
Variable cwd : str.

Lemma response_headers_default (st : store) :
  st !! HTTPServer.headers = Some HTTPServer.headers_init ->
  HTTPServer.response_headers None st =
  (Ok ("Server: CrudeServer" +:+ CRLF +:+ "Content-Type: text/html" +:+ CRLF),
   st ++ [HTTPServer.headers_init]).
Proof.
  intros Hst.
  now rewrite (response_headers_eval st None _ Hst headers_init_NoDup).
Qed.

Lemma response_headers_html (st : store) :
  st !! HTTPServer.headers = Some HTTPServer.headers_init ->
  HTTPServer.response_headers (Some [("Content-Type", "text/html")]) st =
  (Ok ("Server: CrudeServer" +:+ CRLF +:+ "Content-Type: text/html" +:+ CRLF),
   st ++ [HTTPServer.headers_init]).
Proof.
  intros Hst.
  now rewrite (response_headers_eval st _ _ Hst headers_init_NoDup).
Qed.

Lemma HTTP_501_handler_run (st : store) (request : HTTPRequest.t) :
  st !! HTTPServer.headers = Some HTTPServer.headers_init ->
  run (HTTPServer.HTTP_501_handler request) st = Ok Spec.not_implemented_response.
Proof.
  intros Hst. unfold run, HTTPServer.HTTP_501_handler, bind.
  change (HTTPServer.response_line 501 st)
    with (Ok ("HTTP/1.1 501 Not Implemented" +:+ CRLF), st).
  cbv beta iota. now rewrite (response_headers_default st Hst).
Qed.

Lemma handle_GET_missing (st : store) (request : HTTPRequest.t) (uri : str) :
  st !! HTTPServer.headers = Some HTTPServer.headers_init ->
  HTTPRequest.uri request = Some uri ->
  os.path_exists fs (Spec.resolve cwd (Py.strip uri "/")) = false ->
  run (HTTPServer.handle_GET fs cwd request) st = Ok Spec.not_found_response.
Proof.
  intros Hst Huri Hex.
  unfold run, HTTPServer.handle_GET, bind, try_except. rewrite Huri.
  unfold ret at 1, lift at 1, DirListing.__init__.
  unfold Spec.resolve in Hex. rewrite Hex. cbn [negb bool_decide decide_rel].
  change (HTTPServer.response_line 404 st)
    with (Ok ("HTTP/1.1 404 Not Found" +:+ CRLF), st).
  change (bool_decide (FileNotFoundError = FileNotFoundError)) with true.
  cbv beta iota. now rewrite (response_headers_default st Hst).
Qed.

Lemma getattr_GET :
  HTTPServer.getattr ("handle_" +:+ "GET") = Ok HTTPServer.handle_GET_attr.
Proof. reflexivity. Qed.

(** [handle_] followed by anything but GET and request names no
    attribute. *)
Lemma getattr_other (m : str) :
  m <> "GET" -> m <> "request" ->
  HTTPServer.getattr ("handle_" +:+ m) = Raise AttributeError.
Proof.
  intros HGET Hreq. unfold HTTPServer.getattr, HTTPServer.attributes.
  cbn [HTTPServer.lookup_attribute].
  repeat match goal with
  | |- context [String.eqb ?n ?x] =>
      destruct (String.eqb_spec n x) as [Heq|_];
      [exfalso; simpl in Heq; congruence|]
  end.
  reflexivity.
Qed.

Lemma handle_request_dispatch (st : store) (data : bytes)
    (request : HTTPRequest.t) :
  HTTPRequest.__init__ (HTTPRequest.Bytes data) = Ok request ->
  HTTPServer.handle_request fs cwd (HTTPRequest.Bytes data) st =
  HTTPServer.call fs cwd
    (HTTPServer.handle_request_body fs cwd (fun _ => raise RecursionError))
    match HTTPServer.getattr
            ("handle_" +:+ HTTPServer.percent_s (HTTPRequest.method request))
    with
    | Ok handler => handler
    | Raise _ => HTTPServer.HTTP_501_handler_attr
    end request st.
Proof.
  intros Hreq. unfold HTTPServer.handle_request.
  unfold HTTPServer.handle_request_body at 1. unfold bind, lift at 1.
  rewrite Hreq. cbv beta iota.
  now destruct (HTTPServer.call _ _ _ _ _ _) as [[]].
Qed.

(** X5.  The method is matched as it is written, letter case included: a
    request with any method other than GET and request gets the 501
    response. *)
Lemma unsupported_method_501 (st : store) (data : bytes)
    (request : HTTPRequest.t) (m : str) :
  st !! HTTPServer.headers = Some HTTPServer.headers_init ->
  HTTPRequest.__init__ (HTTPRequest.Bytes data) = Ok request ->
  HTTPRequest.method request = Some m ->
  m <> "GET" -> m <> "request" ->
  run (HTTPServer.handle_request fs cwd (HTTPRequest.Bytes data)) st =
  Ok Spec.not_implemented_response.
Proof.
  intros Hst Hreq Hm HGET Hrequest. unfold run.
  rewrite (handle_request_dispatch st data request Hreq), Hm.
  cbn [HTTPServer.percent_s]. rewrite (getattr_other m HGET Hrequest).
  cbn [HTTPServer.call]. now apply HTTP_501_handler_run.
Qed.

(** C4.  A GET request whose URI, stripped of "/" at both ends, resolves to
    a path that does not exist gets the 404 response, whose body is
    "<h1>404 Not Found</h1>": [handle_GET] returns it, and so does
    [handle_request], which raises nothing. *)
Theorem get_missing_path_404 (st : store) (data : bytes)
    (request : HTTPRequest.t) (uri : str) :
  st !! HTTPServer.headers = Some HTTPServer.headers_init ->
  HTTPRequest.__init__ (HTTPRequest.Bytes data) = Ok request ->
  HTTPRequest.method request = Some "GET" ->
  HTTPRequest.uri request = Some uri ->
  os.path_exists fs
    (DirListing.__url_path_to_dir_path cwd (Py.strip uri "/")) = false ->
  let response :=
    "HTTP/1.1 404 Not Found" +:+ CRLF
      +:+ "Server: CrudeServer" +:+ CRLF
      +:+ "Content-Type: text/html" +:+ CRLF
      +:+ CRLF
      +:+ "<h1>404 Not Found</h1>" in
  DirListing.__init__ fs cwd (Py.strip uri "/") = Raise FileNotFoundError
  /\ run (HTTPServer.handle_GET fs cwd request) st = Ok response
  /\ run (HTTPServer.handle_request fs cwd (HTTPRequest.Bytes data)) st
     = Ok response.
Proof.
  intros Hst Hreq Hm Huri Hex response. split; [|split].
  - unfold DirListing.__init__. now rewrite Hex.
  - now apply (handle_GET_missing st request uri).
  - unfold run. rewrite (handle_request_dispatch st data request Hreq), Hm.
    cbn [HTTPServer.percent_s]. rewrite getattr_GET. cbn [HTTPServer.call].
    now apply (handle_GET_missing st request uri).
Qed.

(** C9.  A GET request whose stripped URI resolves to a path that exists
    and is not a directory: [DirListing] is constructed, [os.listdir]
    raises NotADirectoryError in [get_hyperlinked_dir_listing], and
    [handle_GET], which catches FileNotFoundError only, raises it too and
    returns no response. *)
Theorem get_non_directory_raises (st : store) (request : HTTPRequest.t)
    (uri : str) :
  st !! HTTPServer.headers = Some HTTPServer.headers_init ->
  HTTPRequest.uri request = Some uri ->
  let path := DirListing.__url_path_to_dir_path cwd (Py.strip uri "/") in
  os.path_exists fs path = true ->
  os.path_isdir fs path = false ->
  (exists dl,
      DirListing.__init__ fs cwd (Py.strip uri "/") = Ok dl
      /\ DirListing.dir_path dl = path
      /\ DirListing.get_hyperlinked_dir_listing fs cwd dl
         = Raise NotADirectoryError)
  /\ run (HTTPServer.handle_GET fs cwd request) st = Raise NotADirectoryError.
Proof.
  intros Hst Huri path Hex Hdir.
  assert (Hls : os.listdir fs path = Raise NotADirectoryError).
  { unfold os.path_exists in Hex. unfold os.path_isdir in Hdir.
    unfold os.listdir. destruct (fs path) as [[|entries|e0]|]; congruence. }
  assert (Hinit : exists dl,
    DirListing.__init__ fs cwd (Py.strip uri "/") = Ok dl
    /\ DirListing.dir_path dl = path
    /\ DirListing.get_hyperlinked_dir_listing fs cwd dl
       = Raise NotADirectoryError).
  { unfold DirListing.__init__. fold path. rewrite Hex. cbn [negb].
    eexists. split; [reflexivity|]. split; [reflexivity|].
    unfold DirListing.get_hyperlinked_dir_listing. cbn [DirListing.dir_path].
    now rewrite Hls. }
  split; [exact Hinit|]. destruct Hinit as (dl & Hdl & _ & Hlisting).
  unfold run, HTTPServer.handle_GET, bind, try_except. rewrite Huri.
  unfold ret at 1, lift at 1. rewrite Hdl.
  change (HTTPServer.response_line 200 st)
    with (Ok ("HTTP/1.1 200 OK" +:+ CRLF), st).
  cbv beta iota. rewrite (response_headers_html st Hst).
  unfold lift at 1. rewrite Hlisting. reflexivity.
Qed.

(** C2.  The request [GET CR LF CR LF] parses to the method GET with no URI
    at all ([None], not the empty string), and [handle_request] raises
    AttributeError, at [request.uri.strip], instead of returning a
    response. *)
Theorem get_without_uri_raises (st : store) :
  let data := HTTPRequest.Bytes ("GET" +:+ CRLF +:+ CRLF) in
  HTTPRequest.__init__ data =
    Ok {| HTTPRequest.method := Some "GET";
          HTTPRequest.uri := None;
          HTTPRequest.http_version := HTTPRequest.VStr "1.1" |}
  /\ run (HTTPServer.handle_request fs cwd data) st = Raise AttributeError.
Proof. split; reflexivity. Qed.

(** C3.  The request line [request / HTTP/1.1] has a method that is not
    GET, and [handle_request] returns no 501 response for it: the handler
    found under the name handle_request is [handle_request] itself, which
    raises AttributeError when it is called with the request object. *)
Theorem method_request_raises (st : store) :
  let data :=
    HTTPRequest.Bytes ("request / HTTP/1.1" +:+ CRLF +:+ CRLF) in
  HTTPRequest.__init__ data =
    Ok {| HTTPRequest.method := Some "request";
          HTTPRequest.uri := Some "/";
          HTTPRequest.http_version := HTTPRequest.VBytes "HTTP/1.1" |}
  /\ HTTPServer.getattr "handle_request" = Ok HTTPServer.handle_request_attr
  /\ run (HTTPServer.handle_request fs cwd data) st = Raise AttributeError.
Proof. split; [|split]; reflexivity. Qed.

End Server.

(** ** The example site *)

Section Examples.

(** C1, as stated, fails: GET /.. resolves to /srv/www/.., which is /srv
    once normalized, outside the root /srv/www; it is not NotFound, and the
    response lists /srv. *)
Lemma dotdot_leaves_root :
  let url_path := Py.strip "/.." "/" in
  let path := DirListing.__url_path_to_dir_path Demo.cwd url_path in
  path = "/srv/www/.."
  /\ os.path_normpath path = "/srv"
  /\ Spec.inside_root Demo.cwd path = false
  /\ DirListing.__init__ Demo.fs Demo.cwd url_path =
     Ok {| DirListing.dir_path := "/srv/www/..";
           DirListing.is_root_dir := false;
           DirListing.parent_dir := "/srv/www" |}
  /\ os.listdir Demo.fs path = Ok ["www"; "secret.txt"]
  /\ run (HTTPServer.handle_GET Demo.fs Demo.cwd (Demo.get "/.."))
         HTTPServer.initial_store =
     Ok ("HTTP/1.1 200 OK" +:+ CRLF
           +:+ "Server: CrudeServer" +:+ CRLF
           +:+ "Content-Type: text/html" +:+ CRLF
           +:+ CRLF
           +:+ "<html><body>"
           +:+ "<a href=" +:+ DQUOTE +:+ "/" +:+ DQUOTE
           +:+ ">[parent directory]</a><br>"
           +:+ "<a href=" +:+ DQUOTE +:+ "/../www" +:+ DQUOTE
           +:+ ">www/</a><br>"
           +:+ "secret.txt<br>"
           +:+ "</body></html>").
Proof. repeat split. Qed.

(** C5.  With the server at the top of the file system, [unresolve] does
    not undo [resolve]: the URL path sub resolves to /sub and comes back as
    sub, without the "/" in front, and the listing of the root links the
    directory sub to the relative URL sub. *)
Theorem unresolve_resolve_at_top :
  DirListing.__url_path_to_dir_path "/" "sub" = "/sub"
  /\ DirListing.__dir_path_to_url_path "/" "/sub" = "sub"
  /\ DirListing.__dir_path_to_url_path "/"
       (DirListing.__url_path_to_dir_path "/" "sub") <> "/" +:+ "sub"
  /\ run (HTTPServer.handle_GET Demo.top_fs "/" (Demo.get "/"))
         HTTPServer.initial_store =
     Ok ("HTTP/1.1 200 OK" +:+ CRLF
           +:+ "Server: CrudeServer" +:+ CRLF
           +:+ "Content-Type: text/html" +:+ CRLF
           +:+ CRLF
           +:+ "<html><body>"
           +:+ "a.txt<br>"
           +:+ "<a href=" +:+ DQUOTE +:+ "sub" +:+ DQUOTE
           +:+ ">sub/</a><br>"
           +:+ "</body></html>").
Proof. repeat split. discriminate. Qed.

Lemma get_missing_path_404_witness :
  let data := "GET /missing HTTP/1.1" +:+ CRLF +:+ CRLF in
  os.path_exists Demo.fs "/srv/www/missing" = false
  /\ run (HTTPServer.handle_request Demo.fs Demo.cwd (HTTPRequest.Bytes data))
         HTTPServer.initial_store
     = Ok Spec.not_found_response.
Proof.
  split; [reflexivity|].
  apply (get_missing_path_404 Demo.fs Demo.cwd HTTPServer.initial_store
           ("GET /missing HTTP/1.1" +:+ CRLF +:+ CRLF)
           {| HTTPRequest.method := Some "GET";
              HTTPRequest.uri := Some "/missing";
              HTTPRequest.http_version := HTTPRequest.VBytes "HTTP/1.1" |}
           "/missing");
    reflexivity.
Defined.

Lemma get_non_directory_raises_witness :
  os.path_exists Demo.fs "/srv/www/a.txt" = true
  /\ os.path_isdir Demo.fs "/srv/www/a.txt" = false
  /\ run (HTTPServer.handle_GET Demo.fs Demo.cwd (Demo.get "/a.txt"))
         HTTPServer.initial_store
     = Raise NotADirectoryError.
Proof.
  split; [reflexivity|]. split; [reflexivity|].
  apply (get_non_directory_raises Demo.fs Demo.cwd HTTPServer.initial_store
           (Demo.get "/a.txt") "/a.txt");
    reflexivity.
Defined.

Lemma listing_renders_visible_entries_witness :
  let self := {| DirListing.dir_path := "/srv/www";
                 DirListing.is_root_dir := true;
                 DirListing.parent_dir := "" |} in
  os.listdir Demo.fs "/srv/www" = Ok ["a.txt"; "sub"; ".hidden"]
  /\ DirListing.get_hyperlinked_dir_listing Demo.fs Demo.cwd self =
     Ok ("<html><body>"
           +:+ "a.txt<br>"
           +:+ "<a href=" +:+ DQUOTE +:+ "/sub" +:+ DQUOTE
           +:+ ">sub/</a><br>"
           +:+ "</body></html>").
Proof.
  intros self. split; [reflexivity|].
  exact (proj1 (listing_renders_visible_entries Demo.fs Demo.cwd self
                  ["a.txt"; "sub"; ".hidden"] eq_refl)).
Defined.

Lemma listing_parent_link_witness :
  let dl := {| DirListing.dir_path := "/srv/www/sub";
               DirListing.is_root_dir := false;
               DirListing.parent_dir := "/srv/www" |} in
  DirListing.__init__ Demo.fs Demo.cwd "sub" = Ok dl
  /\ os.listdir Demo.fs "/srv/www/sub" = Ok ["deep"]
  /\ DirListing.get_hyperlinked_dir_listing Demo.fs Demo.cwd dl =
     Ok ("<html><body>"
           +:+ "<a href=" +:+ DQUOTE +:+ "/" +:+ DQUOTE
           +:+ ">[parent directory]</a><br>"
           +:+ "<a href=" +:+ DQUOTE +:+ "/sub/deep" +:+ DQUOTE
           +:+ ">deep/</a><br>"
           +:+ "</body></html>").
Proof.
  intros dl. split; [reflexivity|]. split; [reflexivity|].
  exact (proj1 (proj2 (listing_parent_link Demo.fs Demo.cwd "sub" dl
                         ["deep"] eq_refl eq_refl))).
Defined.

Lemma response_headers_block_witness :
  let extra := [("Content-Type", "text/plain"); ("X-Extra", "1")] in
  NoDup (Dict.keys extra)
  /\ run (HTTPServer.response_headers (Some extra)) HTTPServer.initial_store =
     Ok ("Server: CrudeServer" +:+ CRLF
           +:+ "Content-Type: text/plain" +:+ CRLF
           +:+ "X-Extra: 1" +:+ CRLF).
Proof.
  intros extra.
  assert (Hnd : NoDup (Dict.keys extra)).
  { apply (bool_decide_unpack _). vm_compute. exact I. }
  split; [exact Hnd|].
  exact (proj1 (response_headers_block HTTPServer.initial_store (Some extra)
                  eq_refl Hnd)).
Defined.

(** The scenarios of the specification on the example site. *)

Example get_root_scenario :
  run (HTTPServer.handle_request Demo.fs Demo.cwd
         (HTTPRequest.Bytes ("GET / HTTP/1.1" +:+ CRLF +:+ CRLF)))
      HTTPServer.initial_store =
  Ok ("HTTP/1.1 200 OK" +:+ CRLF
        +:+ "Server: CrudeServer" +:+ CRLF
        +:+ "Content-Type: text/html" +:+ CRLF
        +:+ CRLF
        +:+ "<html><body>"
        +:+ "a.txt<br>"
        +:+ "<a href=" +:+ DQUOTE +:+ "/sub" +:+ DQUOTE +:+ ">sub/</a><br>"
        +:+ "</body></html>").
Proof. reflexivity. Qed.

Example get_sub_scenario :
  run (HTTPServer.handle_request Demo.fs Demo.cwd
         (HTTPRequest.Bytes ("GET /sub HTTP/1.1" +:+ CRLF +:+ CRLF)))
      HTTPServer.initial_store =
  Ok ("HTTP/1.1 200 OK" +:+ CRLF
        +:+ "Server: CrudeServer" +:+ CRLF
        +:+ "Content-Type: text/html" +:+ CRLF
        +:+ CRLF
        +:+ "<html><body>"
        +:+ "<a href=" +:+ DQUOTE +:+ "/" +:+ DQUOTE
        +:+ ">[parent directory]</a><br>"
        +:+ "<a href=" +:+ DQUOTE +:+ "/sub/deep" +:+ DQUOTE
        +:+ ">deep/</a><br>"
        +:+ "</body></html>").
Proof. reflexivity. Qed.

Example post_scenario :
  run (HTTPServer.handle_request Demo.fs Demo.cwd
         (HTTPRequest.Bytes ("POST /sub HTTP/1.1" +:+ CRLF +:+ CRLF)))
      HTTPServer.initial_store =
  Ok Spec.not_implemented_response.
Proof. reflexivity. Qed.

Example undecodable_method :
  run (HTTPServer.handle_request Demo.fs Demo.cwd
         (HTTPRequest.Bytes (String "255"%char " / HTTP/1.1")))
      HTTPServer.initial_store =
  Raise UnicodeDecodeError.
Proof. reflexivity. Qed.

End Examples.

(** * Further properties *)

(** ** The request parser *)

Section Parser.

Lemma split_from_nonempty (sep : string) (k : nat) (s : string) :
  Py.split_from sep k s <> [].
Proof.
  revert k. induction s as [|a s IH]; intros k; cbn [Py.split_from].
  - discriminate.
  - destruct k as [|k]; [|apply IH].
    destruct (String.prefix sep (String a s)); [discriminate|].
    destruct (Py.split_from sep 0 s); discriminate.
Qed.

(** What [parse] makes of the words of the first line. *)
Lemma parse_words (data : bytes) :
  exists line lines w0 words,
    Py.split data CRLF = line :: lines
    /\ Py.split line " " = w0 :: words
    /\ HTTPRequest.__init__ (HTTPRequest.Bytes data) =
       do m <~ Py.decode w0;
       match words with
       | [] =>
           Ok {| HTTPRequest.method := Some m; HTTPRequest.uri := None;
                 HTTPRequest.http_version := HTTPRequest.VStr "1.1" |}
       | w1 :: words' =>
           do u <~ Py.decode w1;
           Ok {| HTTPRequest.method := Some m; HTTPRequest.uri := Some u;
                 HTTPRequest.http_version :=
                   match words' with
                   | [] => HTTPRequest.VStr "1.1"
                   | w2 :: _ => HTTPRequest.VBytes w2
                   end |}
       end.
Proof.
  unfold HTTPRequest.__init__, HTTPRequest.parse.
  destruct (Py.split data CRLF) as [|line lines] eqn:Hl.
  { now apply split_from_nonempty in Hl. }
  destruct (Py.split line " ") as [|w0 words] eqn:Hw.
  { now apply split_from_nonempty in Hw. }
  exists line, lines, w0, words. split; [reflexivity|]. split; [exact Hw|].
  cbn [HTTPRequest.index0 rbind]. rewrite Hw. cbn [HTTPRequest.index0 rbind].
  destruct (Py.decode w0) as [m|e]; [|reflexivity]. cbn [rbind].
  destruct words as [|w1 words']; [reflexivity|].
  cbn [List.length Nat.ltb Nat.leb HTTPRequest.method HTTPRequest.uri
         HTTPRequest.http_version].
  destruct (Py.decode w1) as [u|e]; [|reflexivity]. cbn [rbind].
  destruct words' as [|w2 words'']; reflexivity.
Qed.

(** X1.  [HTTPRequest(data)] on bytes raises nothing but UnicodeDecodeError
    (no IndexError at [lines[0]], [words[0]], [words[1]] or [words[2]]), and
    the request it returns has a method, never [None]. *)
Theorem parse_raises_only_decode_error (data : bytes) :
  (exists m uri version,
      HTTPRequest.__init__ (HTTPRequest.Bytes data) =
      Ok {| HTTPRequest.method := Some m; HTTPRequest.uri := uri;
            HTTPRequest.http_version := version |})
  \/ HTTPRequest.__init__ (HTTPRequest.Bytes data) = Raise UnicodeDecodeError.
Proof.
  destruct (parse_words data) as (line & lines & w0 & words & _ & _ & ->).
  unfold Py.decode.
  destruct (Py.utf8_valid w0); cbn [rbind]; [|now right].
  destruct words as [|w1 words']; [left; eauto|].
  destruct (Py.utf8_valid w1); cbn [rbind]; [left; eauto | now right].
Qed.

Lemma occurs_cons (pat : string) (a : ascii) (s : string) :
  Text.occurs pat (String a s) = false ->
  String.prefix pat (String a s) = false /\ Text.occurs pat s = false.
Proof. cbn [Text.occurs]. intros H. now apply orb_false_elim in H. Qed.

(** No separator in [s]: [split] gives [s] alone. *)
Lemma split_no_sep (sep s : string) :
  Text.occurs sep s = false -> Py.split s sep = [s].
Proof.
  unfold Py.split. induction s as [|a s IH]; intros H; [reflexivity|].
  apply occurs_cons in H as [Hp Ho]. cbn [Py.split_from].
  now rewrite Hp, (IH Ho).
Qed.

Lemma split_app_char (c : ascii) (a b : string) :
  Text.occurs (String c "") a = false ->
  Py.split (a +:+ String c b) (String c "") = a :: Py.split b (String c "").
Proof.
  unfold Py.split. induction a as [|x a IH]; intros H.
  - cbn [String.append Py.split_from String.prefix].
    destruct (ascii_dec c c); [|congruence]. now destruct b.
  - apply occurs_cons in H as [Hp Ho]. cbn [String.append Py.split_from].
    cbn [String.prefix] in *. destruct (ascii_dec c x) as [->|Hne].
    + now destruct a.
    + now rewrite (IH Ho).
Qed.

Lemma split_app_crlf (a b : string) :
  Text.occurs CRLF a = false ->
  Py.split (a +:+ CRLF +:+ b) CRLF = a :: Py.split b CRLF.
Proof.
  unfold Py.split. induction a as [|x a IH]; intros H.
  - now destruct b.
  - apply occurs_cons in H as [Hp Ho]. cbn [String.append Py.split_from].
    rewrite (IH Ho).
    replace (String.prefix CRLF (String x (a +:+ CRLF +:+ b))) with false;
      [reflexivity|].
    unfold CRLF in *. cbn [String.prefix] in *.
    destruct (ascii_dec CR x); [|reflexivity].
    destruct a as [|y a]; [reflexivity|].
    cbn [String.append String.prefix] in *.
    destruct (ascii_dec LF y); [|reflexivity].
    destruct a; discriminate Hp.
Qed.

Lemma occurs_crlf_space (a b : string) :
  Text.occurs CRLF (a +:+ String " " b)
  = Text.occurs CRLF a || Text.occurs CRLF b.
Proof.
  induction a as [|x a IH].
  - reflexivity.
  - cbn [String.append Text.occurs]. rewrite IH, orb_assoc. f_equal. f_equal.
    unfold CRLF. cbn [String.prefix].
    destruct (ascii_dec CR x); [|reflexivity].
    destruct a as [|y a]; [reflexivity|].
    cbn [String.append String.prefix].
    destruct (ascii_dec LF y); [now destruct a | reflexivity].
Qed.

Lemma token_parts (t : string) :
  Text.token t = true ->
  Text.occurs " " t = false /\ Text.occurs CRLF t = false.
Proof.
  unfold Text.token. intros H. apply andb_prop in H as [H1 H2].
  now apply negb_true_iff in H1, H2.
Qed.

(** X3.  Only the first line of the data is read: what follows the first
    CR LF changes nothing in the request, and nothing in what [HTTPRequest]
    raises. *)
Theorem parse_reads_first_line_only (line rest : bytes) :
  Text.occurs CRLF line = false ->
  HTTPRequest.__init__ (HTTPRequest.Bytes (line +:+ CRLF +:+ rest))
  = HTTPRequest.__init__ (HTTPRequest.Bytes line).
Proof.
  intros H. unfold HTTPRequest.__init__, HTTPRequest.parse.
  now rewrite (split_app_crlf line rest H), (split_no_sep CRLF line H).
Qed.

(** X4.  A request line of one, two or three tokens, each without a space
    and without CR LF, the first two in UTF-8: the method is the first token;
    the URI is the second, and [None] when there is none; the version is the
    third, as bytes and not decoded, and the string 1.1 when there is none. *)
Theorem parse_request_line (m u v rest : bytes) :
  Text.token m = true -> Text.token u = true -> Text.token v = true ->
  Py.utf8_valid m = true -> Py.utf8_valid u = true ->
  HTTPRequest.__init__ (HTTPRequest.Bytes (m +:+ CRLF +:+ rest)) =
    Ok {| HTTPRequest.method := Some m;
          HTTPRequest.uri := None;
          HTTPRequest.http_version := HTTPRequest.VStr "1.1" |}
  /\ HTTPRequest.__init__
       (HTTPRequest.Bytes ((m +:+ " " +:+ u) +:+ CRLF +:+ rest)) =
     Ok {| HTTPRequest.method := Some m;
           HTTPRequest.uri := Some u;
           HTTPRequest.http_version := HTTPRequest.VStr "1.1" |}
  /\ HTTPRequest.__init__
       (HTTPRequest.Bytes ((m +:+ " " +:+ u +:+ " " +:+ v) +:+ CRLF +:+ rest)) =
     Ok {| HTTPRequest.method := Some m;
           HTTPRequest.uri := Some u;
           HTTPRequest.http_version := HTTPRequest.VBytes v |}.
Proof.
  intros Hm Hu Hv Vm Vu.
  apply token_parts in Hm as [Hm1 Hm2], Hu as [Hu1 Hu2], Hv as [Hv1 Hv2].
  assert (Hmu : Text.occurs CRLF (m +:+ " " +:+ u) = false)
    by (cbn [String.append]; now rewrite occurs_crlf_space, Hm2, Hu2).
  assert (Hmuv : Text.occurs CRLF (m +:+ " " +:+ u +:+ " " +:+ v) = false)
    by (cbn [String.append]; now rewrite !occurs_crlf_space, Hm2, Hu2, Hv2).
  split; [|split]; unfold HTTPRequest.__init__, HTTPRequest.parse.
  - rewrite (split_app_crlf m rest Hm2). cbn [HTTPRequest.index0 rbind].
    rewrite (split_no_sep " " m Hm1). cbn [HTTPRequest.index0 rbind].
    unfold Py.decode. now rewrite Vm.
  - rewrite (split_app_crlf _ rest Hmu). cbn [HTTPRequest.index0 rbind].
    cbn [String.append]. rewrite (split_app_char " " m u Hm1).
    rewrite (split_no_sep " " u Hu1). cbn [HTTPRequest.index0 rbind].
    unfold Py.decode. now rewrite Vm, Vu.
  - rewrite (split_app_crlf _ rest Hmuv). cbn [HTTPRequest.index0 rbind].
    cbn [String.append]. rewrite (split_app_char " " m _ Hm1).
    rewrite (split_app_char " " u v Hu1).
    rewrite (split_no_sep " " v Hv1). cbn [HTTPRequest.index0 rbind].
    unfold Py.decode. now rewrite Vm, Vu.
Qed.

Lemma utf8_valid_ascii (s : string) :
  Text.is_ascii s = true -> Py.utf8_valid s = true.
Proof.
  unfold Py.utf8_valid. induction s as [|a s IH]; [reflexivity|].
  cbn [Text.is_ascii Py.utf8_scan]. intros H. apply andb_prop in H as [Ha Hs].
  now rewrite Ha, (IH Hs).
Qed.

Lemma split_from_ascii (sep : string) (s : string) (k : nat) :
  Text.is_ascii s = true ->
  Forall (fun w => Text.is_ascii w = true) (Py.split_from sep k s).
Proof.
  revert k. induction s as [|a s IH]; intros k H; cbn [Py.split_from].
  - now repeat constructor.
  - cbn [Text.is_ascii] in H. apply andb_prop in H as [Ha Hs].
    destruct k as [|k]; [|now apply IH].
    destruct (String.prefix sep (String a s)).
    + constructor; [reflexivity | now apply IH].
    + pose proof (IH 0%nat Hs) as HF.
      destruct (Py.split_from sep 0 s) as [|w ws].
      * repeat constructor. cbn [Text.is_ascii]. now rewrite Ha.
      * apply Forall_cons in HF as [Hw Hws]. constructor; [|exact Hws].
        cbn [Text.is_ascii]. now rewrite Ha, Hw.
Qed.

(** X2.  Data made of ASCII bytes always gives a request: [HTTPRequest]
    raises nothing on it. *)
Theorem parse_ascii_succeeds (data : bytes) :
  Text.is_ascii data = true ->
  exists request, HTTPRequest.__init__ (HTTPRequest.Bytes data) = Ok request.
Proof.
  intros H.
  destruct (parse_words data) as (line & lines & w0 & words & Hl & Hw & ->).
  pose proof (split_from_ascii CRLF data 0 H) as HF.
  unfold Py.split in Hl, Hw. rewrite Hl in HF.
  apply Forall_cons in HF as [Hline _].
  pose proof (split_from_ascii " " line 0 Hline) as HW. rewrite Hw in HW.
  apply Forall_cons in HW as [Hw0 HW].
  unfold Py.decode. rewrite (utf8_valid_ascii w0 Hw0). cbn [rbind].
  destruct words as [|w1 words']; [eauto|].
  apply Forall_cons in HW as [Hw1 _].
  rewrite (utf8_valid_ascii w1 Hw1). cbn [rbind]. eauto.
Qed.

End Parser.

(** ** What a request gets *)

Section Outcomes.
Variable fs : os.filesystem.
Variable cwd : str.

Lemma recover_run (st : store) (e : exn) (k : bytes * bytes * bytes -> M bytes) :
  st !! HTTPServer.headers = Some HTTPServer.headers_init ->
  (forall st', k ("HTTP/1.1 404 Not Found" +:+ CRLF, Wire.base_headers,
                  "<h1>404 Not Found</h1>") st'
               = (Ok Spec.not_found_response, st')) ->
  fst (let (r, st') :=
         if bool_decide (e = FileNotFoundError)
         then
           bind (HTTPServer.response_line 404)
             (fun response_line =>
                bind (HTTPServer.response_headers None)
                  (fun response_headers =>
                     ret (response_line, response_headers,
                          "<h1>404 Not Found</h1>"))) st
         else (Raise e, st) in
       match r with
       | Ok a => k a st'
       | Raise e' => (Raise e', st')
       end)
  = Wire.recover e.
Proof.
  intros Hst Hk. unfold Wire.recover.
  destruct (bool_decide (e = FileNotFoundError)); [|reflexivity].
  unfold bind.
  change (HTTPServer.response_line 404 st)
    with (Ok ("HTTP/1.1 404 Not Found" +:+ CRLF), st).
  cbv beta iota. rewrite (response_headers_default st Hst).
  unfold ret at 1. now rewrite Hk.
Qed.

(** The three ways of [handle_GET] through its [try] block. *)
Lemma handle_GET_run (st : store) (request : HTTPRequest.t) (u : str) :
  st !! HTTPServer.headers = Some HTTPServer.headers_init ->
  HTTPRequest.uri request = Some u ->
  run (HTTPServer.handle_GET fs cwd request) st =
  match DirListing.__init__ fs cwd (Py.strip u "/") with
  | Raise e => Wire.recover e
  | Ok dl =>
      match DirListing.get_hyperlinked_dir_listing fs cwd dl with
      | Raise e => Wire.recover e
      | Ok html =>
          match Py.encode html with
          | Raise e => Wire.recover e
          | Ok body => Ok (Wire.response "HTTP/1.1 200 OK" body)
          end
      end
  end.
Proof.
  intros Hst Huri.
  assert (Hst' : (st ++ [HTTPServer.headers_init]) !! HTTPServer.headers
                 = Some HTTPServer.headers_init)
    by now apply lookup_app_l_Some.
  unfold run, HTTPServer.handle_GET. unfold bind at 1. rewrite Huri.
  unfold ret at 1. unfold bind at 1. unfold try_except.
  unfold bind at 1. unfold lift at 1.
  destruct (DirListing.__init__ fs cwd (Py.strip u "/")) as [dl|e].
  2:{ now apply recover_run. }
  unfold bind at 1.
  change (HTTPServer.response_line 200 st)
    with (Ok ("HTTP/1.1 200 OK" +:+ CRLF), st).
  cbv beta iota. unfold bind at 1. rewrite (response_headers_html st Hst).
  unfold bind at 1. unfold lift at 1.
  destruct (DirListing.get_hyperlinked_dir_listing fs cwd dl) as [html|e].
  2:{ now apply recover_run. }
  unfold bind at 1. unfold lift at 1.
  destruct (Py.encode html) as [body|e].
  2:{ now apply recover_run. }
  reflexivity.
Qed.

(** How [handle_request] chooses among its handlers. *)
Lemma handle_request_cases (st : store) (data : bytes) :
  st !! HTTPServer.headers = Some HTTPServer.headers_init ->
  run (HTTPServer.handle_request fs cwd (HTTPRequest.Bytes data)) st =
  match HTTPRequest.__init__ (HTTPRequest.Bytes data) with
  | Raise e => Raise e
  | Ok request =>
      let m := HTTPServer.percent_s (HTTPRequest.method request) in
      if String.eqb m "GET" then run (HTTPServer.handle_GET fs cwd request) st
      else if String.eqb m "request" then Raise AttributeError
      else Ok Spec.not_implemented_response
  end.
Proof.
  intros Hst.
  destruct (HTTPRequest.__init__ (HTTPRequest.Bytes data)) as [request|e] eqn:Hreq.
  2:{ unfold run, HTTPServer.handle_request, HTTPServer.handle_request_body.
      unfold bind at 1. unfold lift at 1. now rewrite Hreq. }
  unfold run. rewrite (handle_request_dispatch fs cwd st data request Hreq).
  cbv zeta. set (m := HTTPServer.percent_s (HTTPRequest.method request)).
  destruct (String.eqb_spec m "GET") as [->|HGET]; [reflexivity|].
  destruct (String.eqb_spec m "request") as [->|Hrequest]; [reflexivity|].
  rewrite (getattr_other m HGET Hrequest). cbn [HTTPServer.call].
  now apply HTTP_501_handler_run.
Qed.

(** X6.  A request line without a method (empty data, or data that begins
    with a space or with CR LF) gives the empty method, not [None], and gets
    the 501 response, as any unknown method does. *)
Theorem empty_method_gets_501 (st : store) (data : bytes)
    (request : HTTPRequest.t) :
  st !! HTTPServer.headers = Some HTTPServer.headers_init ->
  HTTPRequest.__init__ (HTTPRequest.Bytes data) = Ok request ->
  data = "" \/ Py.startswith data " " = true \/ Py.startswith data CRLF = true ->
  HTTPRequest.method request = Some ""
  /\ run (HTTPServer.handle_request fs cwd (HTTPRequest.Bytes data)) st
     = Ok Spec.not_implemented_response.
Proof.
  intros Hst Hreq Hdata.
  assert (Hm : HTTPRequest.method request = Some "").
  { destruct (parse_words data) as (line & lines & w0 & words & Hl & Hw & Hp).
    assert (Hw0 : w0 = "").
    { unfold Py.split in Hl, Hw. destruct Hdata as [->|[Hd|Hd]].
      - cbn in Hl. injection Hl as <- <-. cbn in Hw. congruence.
      - destruct data as [|a d]; [discriminate|].
        unfold Py.startswith in Hd. cbn [String.prefix] in Hd.
        destruct (ascii_dec " " a) as [<-|]; [|discriminate].
        cbn [Py.split_from] in Hl.
        change (String.prefix CRLF (String " " d)) with false in Hl.
        assert (Hsp : forall w, Py.split_from " " 0 (String " " w)
                                = "" :: Py.split_from " " 0 w)
          by (intros w; now destruct w).
        destruct (Py.split_from CRLF 0 d) as [|w ws]; injection Hl as <- <-;
          rewrite Hsp in Hw; congruence.
      - unfold Py.startswith, CRLF in Hd.
        destruct data as [|a [|b d]]; cbn [String.prefix] in Hd;
          [discriminate| |].
        { destruct (ascii_dec CR a); discriminate. }
        destruct (ascii_dec CR a) as [<-|]; [|discriminate].
        destruct (ascii_dec LF b) as [<-|]; [|discriminate].
        assert (Hl' : Py.split_from CRLF 0 (String CR (String LF d))
                      = "" :: Py.split_from CRLF 0 d) by now destruct d.
        unfold CRLF in Hl, Hl'. rewrite Hl' in Hl. injection Hl as <- <-.
        cbn in Hw. congruence. }
    subst w0. rewrite Hreq in Hp. cbn [Py.decode Py.utf8_valid rbind] in Hp.
    change (Py.decode "") with (@Ok str "") in Hp. cbn [rbind] in Hp.
    destruct words as [|w1 words'].
    - injection Hp as ->. reflexivity.
    - destruct (Py.decode w1); [|discriminate]. injection Hp as ->. reflexivity. }
  split; [exact Hm|].
  rewrite (handle_request_cases st data Hst), Hreq. cbv zeta.
  now rewrite Hm.
Qed.

Lemma init_raises (url_path : str) (e : exn) :
  DirListing.__init__ fs cwd url_path = Raise e -> e = FileNotFoundError.
Proof.
  unfold DirListing.__init__.
  destruct (negb (os.path_exists fs _)); congruence.
Qed.

Lemma listing_raises (dl : DirListing.t) (e : exn) :
  DirListing.get_hyperlinked_dir_listing fs cwd dl = Raise e ->
  os.listdir fs (DirListing.dir_path dl) = Raise e.
Proof.
  unfold DirListing.get_hyperlinked_dir_listing.
  destruct (os.listdir fs (DirListing.dir_path dl)); cbn [rbind]; congruence.
Qed.

Lemma init_dir_path (url_path : str) (dl : DirListing.t) :
  DirListing.__init__ fs cwd url_path = Ok dl ->
  DirListing.dir_path dl = DirListing.__url_path_to_dir_path cwd url_path.
Proof.
  unfold DirListing.__init__.
  destruct (negb (os.path_exists fs _)); [discriminate|].
  intros H. injection H as <-. reflexivity.
Qed.

Lemma recover_raises (e e' : exn) :
  Wire.recover e = Raise e' -> e' = e /\ e' <> FileNotFoundError.
Proof.
  unfold Wire.recover. destruct (bool_decide (e = FileNotFoundError)) eqn:He.
  - discriminate.
  - intros H. injection H as <-. split; [reflexivity|].
    now apply bool_decide_eq_false in He.
Qed.

Lemma encode_raises (s : str) (e : exn) :
  Py.encode s = Raise e -> e = UnicodeEncodeError.
Proof. unfold Py.encode. destruct (Py.utf8_valid s); congruence. Qed.

(** X8.  An exception that leaves [handle_request] on bytes is never
    FileNotFoundError, which [handle_GET] turns into the 404 response.  It is
    UnicodeDecodeError, AttributeError or UnicodeEncodeError, or else it is
    the exception that [os.listdir] raised on the path that the URI of the
    request resolves to (NotADirectoryError for what is not a directory,
    PermissionError for a directory that cannot be read). *)
Theorem handle_request_raises_only (st : store) (data : bytes) (e : exn) :
  st !! HTTPServer.headers = Some HTTPServer.headers_init ->
  run (HTTPServer.handle_request fs cwd (HTTPRequest.Bytes data)) st = Raise e ->
  e <> FileNotFoundError
  /\ (e = UnicodeDecodeError \/ e = AttributeError \/ e = UnicodeEncodeError
      \/ exists request uri,
           HTTPRequest.__init__ (HTTPRequest.Bytes data) = Ok request
           /\ HTTPRequest.uri request = Some uri
           /\ os.listdir fs
                (DirListing.__url_path_to_dir_path cwd (Py.strip uri "/"))
              = Raise e).
Proof.
  intros Hst. rewrite (handle_request_cases st data Hst).
  assert (Hparse :
    (exists m uri v,
        HTTPRequest.__init__ (HTTPRequest.Bytes data) =
        Ok {| HTTPRequest.method := Some m; HTTPRequest.uri := uri;
              HTTPRequest.http_version := v |})
    \/ HTTPRequest.__init__ (HTTPRequest.Bytes data) = Raise UnicodeDecodeError).
  { destruct (parse_words data) as (line & lines & w0 & words & _ & _ & ->).
    unfold Py.decode.
    destruct (Py.utf8_valid w0); cbn [rbind]; [|now right].
    destruct words as [|w1 words']; [left; eauto|].
    destruct (Py.utf8_valid w1); cbn [rbind]; [left; eauto | now right]. }
  destruct Hparse as [(m & uri & v & ->)| ->].
  2:{ intros H. injection H as <-. split; [discriminate | auto]. }
  cbn [HTTPRequest.method HTTPServer.percent_s]. cbv zeta.
  destruct (String.eqb m "GET").
  2:{ destruct (String.eqb m "request"); intros H; [|discriminate].
      injection H as <-. split; [discriminate | auto]. }
  destruct uri as [u|].
  2:{ intros H. compute in H. injection H as <-. split; [discriminate | auto]. }
  rewrite (handle_GET_run st
             {| HTTPRequest.method := Some m; HTTPRequest.uri := Some u;
                HTTPRequest.http_version := v |} u Hst eq_refl).
  destruct (DirListing.__init__ fs cwd (Py.strip u "/")) as [dl|e1] eqn:Hinit.
  2:{ apply init_raises in Hinit as ->. discriminate. }
  destruct (DirListing.get_hyperlinked_dir_listing fs cwd dl) as [html|e2] eqn:Hl.
  2:{ intros H. apply recover_raises in H as [-> Hne]. split; [exact Hne|].
      right. right. right. eexists _, u. split; [reflexivity|].
      split; [reflexivity|].
      apply listing_raises in Hl. now rewrite (init_dir_path _ dl Hinit) in Hl. }
  destruct (Py.encode html) as [body|e3] eqn:He; [discriminate|].
  apply encode_raises in He as ->. intros H.
  apply recover_raises in H as [-> Hne]. split; [exact Hne | auto].
Qed.

(** X9.  Every response that [handle_request] returns on bytes is the 404
    response, the 501 response, or the status line 200 OK, the two base
    headers, a blank line and a body. *)
Theorem handle_request_responses (st : store) (data : bytes) (response : bytes) :
  st !! HTTPServer.headers = Some HTTPServer.headers_init ->
  run (HTTPServer.handle_request fs cwd (HTTPRequest.Bytes data)) st
    = Ok response ->
  response = Wire.response "HTTP/1.1 404 Not Found" "<h1>404 Not Found</h1>"
  \/ response
     = Wire.response "HTTP/1.1 501 Not Implemented" "<h1>501 Not Implemented</h1>"
  \/ exists body, response = Wire.response "HTTP/1.1 200 OK" body.
Proof.
  intros Hst. rewrite (handle_request_cases st data Hst).
  destruct (HTTPRequest.__init__ (HTTPRequest.Bytes data)) as [request|e];
    [|discriminate].
  cbv zeta.
  destruct (String.eqb (HTTPServer.percent_s (HTTPRequest.method request)) "GET").
  2:{ destruct (String.eqb _ "request"); intros H; [discriminate|].
      injection H as <-. right. left. reflexivity. }
  destruct (HTTPRequest.uri request) as [u|] eqn:Huri.
  2:{ unfold run, HTTPServer.handle_GET. unfold bind at 1. rewrite Huri.
      discriminate. }
  rewrite (handle_GET_run st request u Hst Huri).
  assert (Hrec : forall e, Wire.recover e = Ok response ->
                 response = Wire.response "HTTP/1.1 404 Not Found"
                              "<h1>404 Not Found</h1>").
  { intros e. unfold Wire.recover.
    destruct (bool_decide (e = FileNotFoundError)); [|discriminate].
    intros H. injection H as <-. reflexivity. }
  destruct (DirListing.__init__ fs cwd (Py.strip u "/")) as [dl|e1];
    [|intros H; left; now apply (Hrec e1)].
  destruct (DirListing.get_hyperlinked_dir_listing fs cwd dl) as [html|e2];
    [|intros H; left; now apply (Hrec e2)].
  destruct (Py.encode html) as [body|e3];
    [|intros H; left; now apply (Hrec e3)].
  intros H. injection H as <-. right. right. now exists body.
Qed.

Lemma init_listing (url_path : str) (files : list str) :
  fs (DirListing.__url_path_to_dir_path cwd url_path) = Some (os.Directory files) ->
  exists dl,
    DirListing.__init__ fs cwd url_path = Ok dl
    /\ DirListing.get_hyperlinked_dir_listing fs cwd dl =
       Ok (Spec.page
             (Spec.parent_lines cwd url_path
              ++ Spec.entry_lines fs cwd
                   (DirListing.__url_path_to_dir_path cwd url_path) files)).
Proof.
  intros Hfs. unfold DirListing.__init__, os.path_exists. rewrite Hfs.
  cbn [negb]. eexists. split; [reflexivity|].
  rewrite (listing_page fs cwd _ files).
  2:{ cbn [DirListing.dir_path]. unfold os.listdir. now rewrite Hfs. }
  cbn [DirListing.is_root_dir DirListing.dir_path DirListing.parent_dir].
  unfold Spec.parent_lines, Spec.resolve.
  now destruct (String.eqb url_path "").
Qed.


(** X10.  [response_line] gives the status line of 200, 404 and 501, raises
    KeyError for every other status code, and leaves the store as it is. *)
Theorem response_line_codes (st : store) (status_code : Z) :
  HTTPServer.response_line status_code st =
  (if status_code =? 200 then Ok ("HTTP/1.1 200 OK" +:+ CRLF)
   else if status_code =? 404 then Ok ("HTTP/1.1 404 Not Found" +:+ CRLF)
   else if status_code =? 501 then Ok ("HTTP/1.1 501 Not Implemented" +:+ CRLF)
   else Raise KeyError,
   st).
Proof.
  unfold HTTPServer.response_line, HTTPServer.status_codes, bind, lift.
  cbn [HTTPServer.status_codes_get].
  rewrite (Z.eqb_sym 200), (Z.eqb_sym 404), (Z.eqb_sym 501).
  destruct (Z.eqb_spec status_code 200) as [->|_]; [reflexivity|].
  destruct (Z.eqb_spec status_code 404) as [->|_]; [reflexivity|].
  destruct (Z.eqb_spec status_code 501) as [->|_]; reflexivity.
Qed.

End Outcomes.

(** ** The store across a request *)

Section Frame.
Variable fs : os.filesystem.
Variable cwd : str.

Lemma grows_ret {A} (a : A) : grows (ret a).
Proof. intros st. exists []. unfold exec, ret. cbn. now rewrite app_nil_r. Qed.

Lemma grows_raise {A} (e : exn) : grows (raise (A := A) e).
Proof. intros st. exists []. unfold exec, raise. cbn. now rewrite app_nil_r. Qed.

Lemma grows_lift {A} (r : result A) : grows (lift r).
Proof. intros st. exists []. unfold exec, lift. cbn. now rewrite app_nil_r. Qed.

Lemma grows_bind {A B} (m : M A) (k : A -> M B) :
  grows m -> (forall a, grows (k a)) -> grows (bind m k).
Proof.
  intros Hm Hk st. destruct (Hm st) as [l1 H1]. unfold exec, bind in *.
  destruct (m st) as [[a|e] st1]; cbn [snd] in *; subst st1.
  - destruct (Hk a (st ++ l1)) as [l2 H2]. unfold exec in H2.
    exists (l1 ++ l2). now rewrite H2, app_assoc.
  - now exists l1.
Qed.

Lemma grows_try_except {A} (m handler : M A) (e : exn) :
  grows m -> grows handler -> grows (try_except m e handler).
Proof.
  intros Hm Hh st. destruct (Hm st) as [l1 H1]. unfold exec, try_except in *.
  destruct (m st) as [[a|e'] st1]; cbn [snd] in *; subst st1.
  - now exists l1.
  - destruct (bool_decide (e' = e)); [|now exists l1].
    destruct (Hh (st ++ l1)) as [l2 H2]. unfold exec in H2.
    exists (l1 ++ l2). now rewrite H2, app_assoc.
Qed.

Lemma grows_response_line (status_code : Z) :
  grows (HTTPServer.response_line status_code).
Proof.
  unfold HTTPServer.response_line.
  apply grows_bind; [apply grows_lift | intros; apply grows_lift].
Qed.

Lemma grows_response_headers (extra : option dict) :
  grows (HTTPServer.response_headers extra).
Proof.
  intros st. unfold exec.
  destruct (st !! HTTPServer.headers) as [d|] eqn:Hd.
  - rewrite (response_headers_run st extra d Hd). now eexists.
  - rewrite (response_headers_missing st extra Hd). exists [].
    cbn. now rewrite app_nil_r.
Qed.

Lemma grows_handle_GET (request : HTTPRequest.t) :
  grows (HTTPServer.handle_GET fs cwd request).
Proof.
  unfold HTTPServer.handle_GET. apply grows_bind.
  { destruct (HTTPRequest.uri request); [apply grows_ret | apply grows_raise]. }
  intros url_path. apply grows_bind.
  - apply grows_try_except.
    + apply grows_bind; [apply grows_lift|]. intros dl.
      apply grows_bind; [apply grows_response_line|]. intros l.
      apply grows_bind; [apply grows_response_headers|]. intros h.
      apply grows_bind; [apply grows_lift|]. intros listing.
      apply grows_bind; [apply grows_lift|]. intros body. apply grows_ret.
    + apply grows_bind; [apply grows_response_line|]. intros l.
      apply grows_bind; [apply grows_response_headers|]. intros h.
      apply grows_ret.
  - intros [[l h] b]. apply grows_ret.
Qed.

Lemma grows_HTTP_501_handler (request : HTTPRequest.t) :
  grows (HTTPServer.HTTP_501_handler request).
Proof.
  unfold HTTPServer.HTTP_501_handler.
  apply grows_bind; [apply grows_response_line|]. intros l.
  apply grows_bind; [apply grows_response_headers|]. intros h.
  apply grows_ret.
Qed.

Lemma grows_handle_request_body
    (self_handle_request : HTTPRequest.data_arg -> M bytes)
    (data : HTTPRequest.data_arg) :
  (forall d, grows (self_handle_request d)) ->
  grows (HTTPServer.handle_request_body fs cwd self_handle_request data).
Proof.
  intros Hself. unfold HTTPServer.handle_request_body.
  apply grows_bind; [apply grows_lift|]. intros request.
  apply grows_bind; [|intros; apply grows_ret].
  destruct (match HTTPServer.getattr _ with Ok h => h | Raise _ => _ end);
    cbn [HTTPServer.call];
    try apply grows_raise; auto using grows_handle_GET, grows_HTTP_501_handler.
Qed.

Lemma grows_handle_request (data : HTTPRequest.data_arg) :
  grows (HTTPServer.handle_request fs cwd data).
Proof.
  unfold HTTPServer.handle_request. apply grows_handle_request_body.
  intros d. apply grows_handle_request_body. intros d'. apply grows_raise.
Qed.

(** X11.  [handle_request] changes no dictionary that is in the store, the
    shared [HTTPServer.headers] among them: whatever the data, and whether it
    returns or raises, the store it leaves is the one it found with new
    dictionaries (the copies) behind it. *)
Theorem handle_request_keeps_store (st : store) (data : HTTPRequest.data_arg) :
  (exists added, exec (HTTPServer.handle_request fs cwd data) st = st ++ added)
  /\ forall (l : loc) (d : dict),
       st !! l = Some d ->
       exec (HTTPServer.handle_request fs cwd data) st !! l = Some d.
Proof.
  destruct (grows_handle_request data st) as [added Hadded].
  split; [now exists added|].
  intros l d Hl. rewrite Hadded. now apply lookup_app_l_Some.
Qed.

End Frame.

(** ** The loop of [start] *)

Section Loop.

Lemma served_app_raise (before : list (result bytes)) (sent : list bytes)
    (e : exn) (after : list (result bytes)) :
  before = map Ok sent ->
  Wire.served (before ++ Raise e :: after) = (sent, Some e).
Proof.
  intros ->. induction sent as [|r sent IH]; [reflexivity|].
  cbn [map app Wire.served]. now rewrite IH.
Qed.

(** The loop with a handler whose result does not depend on the store, as
    long as the store keeps the property [I], which the handler keeps. *)
Lemma start_served (h : bytes -> M bytes) (I : store -> Prop)
    (out : bytes -> result bytes) :
  (forall d st, I st -> run (h d) st = out d) ->
  (forall d st, I st -> I (exec (h d) st)) ->
  forall conns st, I st ->
    fst (TCPServer.start h conns st)
      = Wire.served (map (fun pending => out (TCPServer.recv 1024 pending)) conns)
    /\ I (snd (TCPServer.start h conns st)).
Proof.
  intros Hrun Hexec. induction conns as [|pending conns IH]; intros st HI.
  - split; [reflexivity | exact HI].
  - cbn [TCPServer.start map Wire.served].
    specialize (Hrun (TCPServer.recv 1024 pending) st HI).
    specialize (Hexec (TCPServer.recv 1024 pending) st HI).
    unfold run, exec in Hrun, Hexec.
    destruct (h (TCPServer.recv 1024 pending) st) as [[r|e] st'];
      cbn [fst snd] in Hrun, Hexec; rewrite <- Hrun.
    + destruct (IH st' Hexec) as [Hs HI'].
      destruct (TCPServer.start h conns st') as [[sent e] st''].
      cbn [fst snd] in *. rewrite <- Hs. split; [reflexivity | exact HI'].
    + split; [reflexivity | exact Hexec].
Qed.

Variable fs : os.filesystem.
Variable cwd : str.

Lemma handle_request_run_initial (st : store) (data : bytes) :
  st !! HTTPServer.headers = Some HTTPServer.headers_init ->
  run (HTTPServer.handle_request fs cwd (HTTPRequest.Bytes data)) st
  = run (HTTPServer.handle_request fs cwd (HTTPRequest.Bytes data))
        HTTPServer.initial_store.
Proof.
  intros Hst.
  rewrite (handle_request_cases fs cwd st data Hst).
  rewrite (handle_request_cases fs cwd HTTPServer.initial_store data eq_refl).
  destruct (HTTPRequest.__init__ (HTTPRequest.Bytes data)) as [request|e];
    [|reflexivity].
  cbv zeta. destruct (String.eqb _ "GET"); [|reflexivity].
  destruct (HTTPRequest.uri request) as [u|] eqn:Huri.
  - now rewrite (handle_GET_run fs cwd st request u Hst Huri),
      (handle_GET_run fs cwd HTTPServer.initial_store request u eq_refl Huri).
  - unfold run, HTTPServer.handle_GET. unfold bind at 1 3. now rewrite Huri.
Qed.

Lemma HTTPServer_start_served (conns : list bytes) (st : store) :
  st !! HTTPServer.headers = Some HTTPServer.headers_init ->
  fst (HTTPServer_start fs cwd conns st)
    = Wire.served
        (map (fun pending =>
                run (HTTPServer.handle_request fs cwd
                       (HTTPRequest.Bytes (TCPServer.recv 1024 pending)))
                    HTTPServer.initial_store) conns)
  /\ snd (HTTPServer_start fs cwd conns st) !! HTTPServer.headers
     = Some HTTPServer.headers_init.
Proof.
  intros Hst. unfold HTTPServer_start.
  apply (start_served
           (fun data => HTTPServer.handle_request fs cwd (HTTPRequest.Bytes data))
           (fun st => st !! HTTPServer.headers = Some HTTPServer.headers_init)
           (fun data => run (HTTPServer.handle_request fs cwd
                               (HTTPRequest.Bytes data))
                            HTTPServer.initial_store)).
  - intros d st' Hst'. now apply handle_request_run_initial.
  - intros d st' Hst'.
    destruct (grows_handle_request fs cwd (HTTPRequest.Bytes d) st')
      as [added ->].
    now apply lookup_app_l_Some.
  - exact Hst.
Qed.

(** X12.  The server keeps nothing from one connection to the next: the
    responses that the loop of [start] sends are those that each request
    gets on its own, on the first 1024 bytes of its connection, in the order
    of the connections, up to the first request that raises; the shared
    headers are the same after the loop. *)
Theorem start_serves_each_on_its_own (conns : list bytes) (st : store) :
  st !! HTTPServer.headers = Some HTTPServer.headers_init ->
  let outcome pending :=
    run (HTTPServer.handle_request fs cwd
           (HTTPRequest.Bytes (TCPServer.recv 1024 pending)))
        HTTPServer.initial_store in
  fst (HTTPServer_start fs cwd conns st) = Wire.served (map outcome conns)
  /\ snd (HTTPServer_start fs cwd conns st) !! HTTPServer.headers
     = Some HTTPServer.headers_init.
Proof. intros Hst outcome. now apply HTTPServer_start_served. Qed.

(** X13.  A request that raises ends the loop of [start]: the connections
    before it have their responses, it has none, and those after it are
    never served, whatever they hold. *)
Theorem start_stops_at_first_exception (before after : list bytes)
    (pending : bytes) (sent : list bytes) (e : exn) (st : store) :
  st !! HTTPServer.headers = Some HTTPServer.headers_init ->
  let outcome pending :=
    run (HTTPServer.handle_request fs cwd
           (HTTPRequest.Bytes (TCPServer.recv 1024 pending)))
        HTTPServer.initial_store in
  map outcome before = map Ok sent ->
  outcome pending = Raise e ->
  fst (HTTPServer_start fs cwd (before ++ pending :: after) st)
  = (sent, Some e).
Proof.
  intros Hst outcome Hbefore Hpending.
  destruct (HTTPServer_start_served (before ++ pending :: after) st Hst)
    as [-> _].
  fold outcome. rewrite map_app. cbn [map]. rewrite Hpending.
  now apply served_app_raise.
Qed.

End Loop.

(** ** Links of a listing *)

Section Links.





Lemma no_sep_ends (n : str) :
  Text.occurs os.sep_str n = false ->
  Py.startswith n os.sep_str = false /\ Py.endswith_char n os.sep = false.
Proof.
  unfold Py.startswith, os.sep_str. induction n as [|a n IH]; intros H.
  - split; reflexivity.
  - apply occurs_cons in H as [Hp Ho]. split; [exact Hp|].
    destruct (IH Ho) as [_ He]. cbn [Py.endswith_char]. destruct n; [|exact He].
    cbn [String.prefix] in Hp. destruct (Ascii.eqb_spec a os.sep) as [->|]; [|reflexivity].
    destruct (ascii_dec os.sep os.sep); [discriminate | congruence].
Qed.

Lemma lstrip_id (s : string) (c : ascii) :
  Py.startswith s (String c "") = false -> Py.lstrip s c = s.
Proof.
  destruct s as [|a s]; [reflexivity|]. unfold Py.startswith.
  cbn [String.prefix Py.lstrip]. destruct (ascii_dec c a) as [->|Hne].
  - now destruct s.
  - intros _. destruct (Ascii.eqb_spec a c); [congruence | reflexivity].
Qed.

Lemma strip_slashes_around (u : string) (c : ascii) :
  Py.rstrip (Py.lstrip (u +:+ String c "") c) c = Py.rstrip (Py.lstrip u c) c.
Proof.
  induction u as [|a u IH].
  - cbn. now rewrite Ascii.eqb_refl.
  - cbn [String.append Py.lstrip]. destruct (Ascii.eqb a c); [exact IH|].
    change (String a (u +:+ String c "")) with (String a u +:+ String c "").
    apply rstrip_snoc.
Qed.

Lemma startswith_char_app (s t : string) (c : ascii) :
  s <> "" ->
  Py.startswith (s +:+ t) (String c "") = Py.startswith s (String c "").
Proof.
  destruct s as [|a s]; [congruence|]. intros _. unfold Py.startswith.
  cbn [String.append String.prefix].
  destruct (ascii_dec c a); [|reflexivity]. destruct s; now destruct t.
Qed.

Lemma endswith_after_sep (a b : str) (c : ascii) :
  b <> "" ->
  Py.endswith_char (a +:+ os.sep_str +:+ b) c = Py.endswith_char b c.
Proof.
  intros Hb. rewrite endswith_char_app.
  - now apply (endswith_char_app os.sep_str b c).
  - discriminate.
Qed.

Variable fs : os.filesystem.
Variable cwd : str.

Lemma root_prefix_away (Hform : Spec.getcwd_form cwd = true) (Hne : cwd <> "/") :
  Spec.root_prefix cwd = cwd +:+ os.sep_str
  /\ cwd <> "" /\ Py.endswith_char cwd os.sep = false
  /\ Py.truthy cwd = true.
Proof.
  unfold Spec.getcwd_form in Hform.
  apply andb_prop in Hform as [Habs H]. apply orb_prop in H as [H|H].
  - apply String.eqb_eq in H. contradiction.
  - apply negb_true_iff in H. unfold Spec.root_prefix. rewrite H.
    destruct cwd; [discriminate|]. repeat split; congruence.
Qed.



(** X17.  Away from the top of the file system, the link that a listing
    gives to a directory entry leads to that directory: a GET of its href
    resolves to the path of the entry, the directory listed joined with the
    name. *)
Theorem directory_link_leads_there (uri name : str) :
  Spec.getcwd_form cwd = true -> cwd <> "/" ->
  name <> "" -> Text.occurs "/" name = false ->
  let dir := DirListing.__url_path_to_dir_path cwd (Py.strip uri "/") in
  let href := DirListing.__dir_path_to_url_path cwd (os.path_join dir name) in
  DirListing.__url_path_to_dir_path cwd (Py.strip href "/")
  = os.path_join dir name.
Proof.
  intros Hform Hne Hname Hocc dir href.
  destruct (root_prefix_away Hform Hne) as (Hroot & Hcwd & Hcend & Htruthy).
  destruct (no_sep_ends name Hocc) as [Hnhead Hnend].
  destruct (strip_no_sep uri "/") as [Hhead Hend].
  assert (Hback : forall z, z <> "" ->
            Py.startswith z os.sep_str = false ->
            Py.endswith_char z os.sep = false ->
            DirListing.__url_path_to_dir_path cwd
              (Py.strip
                 (DirListing.__dir_path_to_url_path cwd
                    (cwd +:+ os.sep_str +:+ z)) "/")
            = cwd +:+ os.sep_str +:+ z).
  { intros z Hz Hzhead Hzend. rewrite unresolve_under_root.
    change (os.sep_str +:+ z) with (String "/" z). cbn [Py.truthy].
    unfold Py.strip. cbn [Py.lstrip].
    change (Ascii.eqb "/" "/") with true. cbv iota.
    rewrite (lstrip_id z "/" Hzhead), (rstrip_id z "/" Hzend).
    now rewrite (resolve_stripped cwd z Hz Hzhead Hzend), Hroot, append_assoc. }
  subst href dir. destruct (Py.strip uri "/") as [|a u] eqn:Hu.
  - rewrite (resolve_empty cwd Hform).
    rewrite (path_join_relative cwd name Hnhead), Htruthy, Hcend.
    cbn [negb orb]. rewrite append_assoc. now apply Hback.
  - assert (Hau : String a u <> "") by discriminate.
    rewrite (resolve_stripped cwd (String a u) Hau Hhead Hend), Hroot.
    rewrite (path_join_relative _ name Hnhead).
    replace (Py.truthy ((cwd +:+ os.sep_str) +:+ String a u)) with true
      by (destruct cwd; [discriminate | reflexivity]).
    assert (He : Py.endswith_char ((cwd +:+ os.sep_str) +:+ String a u) os.sep
                 = false)
      by (rewrite append_assoc, endswith_after_sep by discriminate; exact Hend).
    rewrite He. cbn [negb orb]. rewrite !append_assoc. apply Hback.
    + discriminate.
    + unfold os.sep_str in *. now rewrite startswith_char_app.
    + now rewrite endswith_after_sep.
Qed.

(** X18.  The slashes around the URI do not count: a GET of the URI with a
    "/" more in front and one more behind does what the GET of the URI
    does. *)
Theorem slashes_around_uri (request request' : HTTPRequest.t) (st : store)
    (u : str) :
  HTTPRequest.uri request = Some u ->
  HTTPRequest.uri request' = Some ("/" +:+ u +:+ "/") ->
  HTTPServer.handle_GET fs cwd request' st = HTTPServer.handle_GET fs cwd request st.
Proof.
  intros Hu Hu'. unfold HTTPServer.handle_GET. unfold bind at 1 3.
  rewrite Hu, Hu'. unfold ret at 1 3.
  replace (Py.strip ("/" +:+ u +:+ "/") "/") with (Py.strip u "/");
    [reflexivity|].
  unfold Py.strip. cbn [String.append Py.lstrip]. rewrite Ascii.eqb_refl.
  symmetry. apply strip_slashes_around.
Qed.

(** X19.  [unresolve] never gives the empty string, and its test of the
    root is one of text: of a path that begins with the root it gives what
    follows the root, also when that does not begin with a separator, as for
    a neighbour of the root whose name begins with the name of the root. *)
Theorem unresolve_is_textual (dir_path rest : str) :
  DirListing.__dir_path_to_url_path cwd dir_path <> ""
  /\ (rest <> "" -> DirListing.__dir_path_to_url_path cwd (cwd +:+ rest) = rest).
Proof.
  split.
  - unfold DirListing.__dir_path_to_url_path.
    destruct (Py.startswith dir_path cwd); [|discriminate].
    destruct (Py.replace _ os.sep "/"); discriminate.
  - intros Hrest. rewrite unresolve_under_root. now destruct rest.
Qed.

End Links.

(** ** The further properties on the example site *)

Section FurtherExamples.

Lemma parse_ascii_succeeds_witness :
  Text.is_ascii ("GET /sub HTTP/1.1" +:+ CRLF +:+ CRLF) = true
  /\ exists request,
       HTTPRequest.__init__
         (HTTPRequest.Bytes ("GET /sub HTTP/1.1" +:+ CRLF +:+ CRLF))
       = Ok request.
Proof.
  split; [reflexivity|].
  exact (parse_ascii_succeeds ("GET /sub HTTP/1.1" +:+ CRLF +:+ CRLF) eq_refl).
Defined.

Lemma parse_reads_first_line_only_witness :
  Text.occurs CRLF "GET /sub HTTP/1.1" = false
  /\ HTTPRequest.__init__
       (HTTPRequest.Bytes
          ("GET /sub HTTP/1.1" +:+ CRLF +:+ ("Host: example" +:+ CRLF +:+ CRLF)))
     = HTTPRequest.__init__ (HTTPRequest.Bytes "GET /sub HTTP/1.1").
Proof.
  split; [reflexivity|].
  exact (parse_reads_first_line_only "GET /sub HTTP/1.1"
           ("Host: example" +:+ CRLF +:+ CRLF) eq_refl).
Defined.

Lemma parse_request_line_witness :
  Text.token "GET" = true /\ Text.token "/sub" = true
  /\ Text.token "HTTP/1.1" = true
  /\ HTTPRequest.__init__
       (HTTPRequest.Bytes (("GET" +:+ " " +:+ "/sub") +:+ CRLF +:+ CRLF))
     = Ok {| HTTPRequest.method := Some "GET";
             HTTPRequest.uri := Some "/sub";
             HTTPRequest.http_version := HTTPRequest.VStr "1.1" |}.
Proof.
  repeat (split; [reflexivity|]).
  exact (proj1 (proj2 (parse_request_line "GET" "/sub" "HTTP/1.1" CRLF
                         eq_refl eq_refl eq_refl eq_refl eq_refl))).
Defined.

Lemma unsupported_method_501_witness :
  let data := "get / HTTP/1.1" +:+ CRLF +:+ CRLF in
  "get" <> "GET"
  /\ run (HTTPServer.handle_request Demo.fs Demo.cwd (HTTPRequest.Bytes data))
         HTTPServer.initial_store
     = Ok Spec.not_implemented_response.
Proof.
  intros data. split; [discriminate|].
  apply (unsupported_method_501 Demo.fs Demo.cwd HTTPServer.initial_store data
           {| HTTPRequest.method := Some "get";
              HTTPRequest.uri := Some "/";
              HTTPRequest.http_version := HTTPRequest.VBytes "HTTP/1.1" |}
           "get");
    (reflexivity || discriminate).
Defined.

Lemma empty_method_gets_501_witness :
  let data := " / HTTP/1.1" +:+ CRLF +:+ CRLF in
  Py.startswith data " " = true
  /\ run (HTTPServer.handle_request Demo.fs Demo.cwd (HTTPRequest.Bytes data))
         HTTPServer.initial_store
     = Ok Spec.not_implemented_response.
Proof.
  intros data. split; [reflexivity|].
  refine (proj2 (empty_method_gets_501 Demo.fs Demo.cwd HTTPServer.initial_store
                   data
                   {| HTTPRequest.method := Some "";
                      HTTPRequest.uri := Some "/";
                      HTTPRequest.http_version := HTTPRequest.VBytes "HTTP/1.1" |}
                   eq_refl eq_refl _)).
  right. left. reflexivity.
Defined.


Lemma handle_request_raises_only_witness :
  let data := "GET /locked HTTP/1.1" +:+ CRLF +:+ CRLF in
  run (HTTPServer.handle_request Demo.locked_fs Demo.cwd (HTTPRequest.Bytes data))
      HTTPServer.initial_store
    = Raise PermissionError
  /\ os.listdir Demo.locked_fs "/srv/www/locked" = Raise PermissionError
  /\ PermissionError <> FileNotFoundError.
Proof.
  intros data. split; [reflexivity|]. split; [reflexivity|].
  exact (proj1 (handle_request_raises_only Demo.locked_fs Demo.cwd
                  HTTPServer.initial_store data PermissionError
                  eq_refl eq_refl)).
Defined.

Lemma handle_request_responses_witness :
  let response := Wire.response "HTTP/1.1 404 Not Found" "<h1>404 Not Found</h1>" in
  run (HTTPServer.handle_request Demo.fs Demo.cwd
         (HTTPRequest.Bytes ("GET /missing HTTP/1.1" +:+ CRLF +:+ CRLF)))
      HTTPServer.initial_store
    = Ok response
  /\ (response = Wire.response "HTTP/1.1 404 Not Found" "<h1>404 Not Found</h1>"
      \/ response
         = Wire.response "HTTP/1.1 501 Not Implemented"
             "<h1>501 Not Implemented</h1>"
      \/ exists body, response = Wire.response "HTTP/1.1 200 OK" body).
Proof.
  intros response. split; [reflexivity|].
  exact (handle_request_responses Demo.fs Demo.cwd HTTPServer.initial_store
           ("GET /missing HTTP/1.1" +:+ CRLF +:+ CRLF) response
           eq_refl eq_refl).
Defined.

Lemma handle_request_keeps_store_witness :
  exec (HTTPServer.handle_request Demo.fs Demo.cwd
          (HTTPRequest.Bytes ("GET / HTTP/1.1" +:+ CRLF +:+ CRLF)))
       HTTPServer.initial_store !! HTTPServer.headers
  = Some HTTPServer.headers_init.
Proof.
  exact (proj2 (handle_request_keeps_store Demo.fs Demo.cwd
                  HTTPServer.initial_store
                  (HTTPRequest.Bytes ("GET / HTTP/1.1" +:+ CRLF +:+ CRLF)))
           HTTPServer.headers HTTPServer.headers_init eq_refl).
Defined.

Lemma start_serves_each_on_its_own_witness :
  fst (HTTPServer_start Demo.fs Demo.cwd
         ["GET /missing HTTP/1.1" +:+ CRLF +:+ CRLF;
          "POST / HTTP/1.1" +:+ CRLF +:+ CRLF]
         HTTPServer.initial_store)
  = ([Spec.not_found_response; Spec.not_implemented_response], None).
Proof.
  exact (proj1 (start_serves_each_on_its_own Demo.fs Demo.cwd
                  ["GET /missing HTTP/1.1" +:+ CRLF +:+ CRLF;
                   "POST / HTTP/1.1" +:+ CRLF +:+ CRLF]
                  HTTPServer.initial_store eq_refl)).
Defined.

Lemma start_stops_at_first_exception_witness :
  fst (HTTPServer_start Demo.fs Demo.cwd
         (["POST / HTTP/1.1" +:+ CRLF +:+ CRLF]
          ++ ("GET" +:+ CRLF +:+ CRLF)
          :: ["GET / HTTP/1.1" +:+ CRLF +:+ CRLF])
         HTTPServer.initial_store)
  = ([Spec.not_implemented_response], Some AttributeError).
Proof.
  exact (start_stops_at_first_exception Demo.fs Demo.cwd
           ["POST / HTTP/1.1" +:+ CRLF +:+ CRLF]
           ["GET / HTTP/1.1" +:+ CRLF +:+ CRLF]
           ("GET" +:+ CRLF +:+ CRLF)
           [Spec.not_implemented_response] AttributeError
           HTTPServer.initial_store eq_refl eq_refl eq_refl).
Defined.

Lemma unresolve_resolve_witness :
  Spec.getcwd_form Demo.cwd = true
  /\ DirListing.__dir_path_to_url_path Demo.cwd
       (DirListing.__url_path_to_dir_path Demo.cwd (Py.strip "/sub/deep/" "/"))
     = "/sub/deep".
Proof.
  split; [reflexivity|].
  refine (unresolve_resolve Demo.cwd "/sub/deep/" eq_refl _). discriminate.
Defined.


Lemma directory_link_leads_there_witness :
  DirListing.__dir_path_to_url_path Demo.cwd
    (os.path_join "/srv/www/sub" "deep") = "/sub/deep"
  /\ DirListing.__url_path_to_dir_path Demo.cwd (Py.strip "/sub/deep" "/")
     = os.path_join "/srv/www/sub" "deep".
Proof.
  split; [reflexivity|].
  refine (directory_link_leads_there Demo.cwd "/sub" "deep" eq_refl _ _ eq_refl);
    discriminate.
Defined.

Lemma slashes_around_uri_witness :
  HTTPServer.handle_GET Demo.fs Demo.cwd (Demo.get ("/" +:+ "sub" +:+ "/"))
    HTTPServer.initial_store
  = HTTPServer.handle_GET Demo.fs Demo.cwd (Demo.get "sub")
      HTTPServer.initial_store.
Proof.
  exact (slashes_around_uri Demo.fs Demo.cwd (Demo.get "sub")
           (Demo.get ("/" +:+ "sub" +:+ "/")) HTTPServer.initial_store "sub"
           eq_refl eq_refl).
Defined.

Lemma unresolve_is_textual_witness :
  DirListing.__dir_path_to_url_path "/srv/www" ("/srv/www" +:+ "2/private")
  = "2/private".
Proof.
  refine (proj2 (unresolve_is_textual "/srv/www" "" "2/private") _).
  discriminate.
Defined.

End FurtherExamples.

(** ** Where a resolved path may lead *)

Section Confinement.
Variable fs : os.filesystem.
Variable cwd : str.

(** C1 (amended).  The path that a GET looks up is the root directory, a
    separator, and the URI stripped of "/" at both ends, taken as it is (the
    root itself for an empty URL path): it begins with the root as a text,
    it is not normalized, and nothing checks that it stays inside the root.
    When this path does not exist, and only then, [DirListing] raises
    FileNotFoundError, and [handle_GET] returns the 404 response.  When it
    exists, [DirListing] is built for this very path and [os.listdir] is
    called on it: the listing is the page of its entries, or the exception of
    [os.listdir]; and for a directory with its entries [handle_GET] returns
    the 200 response with that listing (or raises UnicodeEncodeError when
    it cannot be encoded), inside the root or not. *)
Theorem resolved_path_is_root_then_url (st : store) (request : HTTPRequest.t)
    (uri : str) :
  Spec.getcwd_form cwd = true ->
  st !! HTTPServer.headers = Some HTTPServer.headers_init ->
  HTTPRequest.uri request = Some uri ->
  let url_path := Py.strip uri "/" in
  let path := DirListing.__url_path_to_dir_path cwd url_path in
  let listing files :=
    Spec.page (Spec.parent_lines cwd url_path
               ++ Spec.entry_lines fs cwd path files) in
  path = (if Py.truthy url_path then Spec.root_prefix cwd +:+ url_path
          else cwd)
  /\ Py.startswith path cwd = true
  /\ (DirListing.__init__ fs cwd url_path = Raise FileNotFoundError
      <-> os.path_exists fs path = false)
  /\ (os.path_exists fs path = false ->
      run (HTTPServer.handle_GET fs cwd request) st
      = Ok Spec.not_found_response)
  /\ (os.path_exists fs path = true <->
      exists dl, DirListing.__init__ fs cwd url_path = Ok dl
                 /\ DirListing.dir_path dl = path)
  /\ (forall dl,
        DirListing.__init__ fs cwd url_path = Ok dl ->
        DirListing.get_hyperlinked_dir_listing fs cwd dl =
        match os.listdir fs path with
        | Ok files => Ok (listing files)
        | Raise e => Raise e
        end)
  /\ (forall files,
        fs path = Some (os.Directory files) ->
        run (HTTPServer.handle_GET fs cwd request) st =
        if Py.utf8_valid (listing files)
        then Ok ("HTTP/1.1 200 OK" +:+ CRLF
                   +:+ "Server: CrudeServer" +:+ CRLF
                   +:+ "Content-Type: text/html" +:+ CRLF
                   +:+ CRLF +:+ listing files)
        else Raise UnicodeEncodeError).
Proof.
  intros Hform Hst Huri url_path path listing.
  assert (Hpath : path = (if Py.truthy url_path
                          then Spec.root_prefix cwd +:+ url_path else cwd)).
  { subst path. destruct (strip_no_sep uri "/") as [Hhead Hend].
    fold url_path in Hhead, Hend. destruct url_path as [|a u] eqn:Hu.
    - now apply resolve_empty.
    - now apply resolve_stripped. }
  split; [exact Hpath|]. split; [|split; [|split; [|split; [|split]]]].
  - rewrite Hpath. unfold Py.startswith, Spec.root_prefix.
    destruct (Py.truthy url_path).
    + destruct (negb (Py.truthy cwd) || Py.endswith_char cwd os.sep);
        rewrite ?append_assoc; apply prefix_append.
    + rewrite <- (append_nil_r cwd) at 2. apply prefix_append.
  - unfold DirListing.__init__. fold path.
    destruct (os.path_exists fs path); cbn [negb]; split; congruence.
  - intros Hex. now apply (handle_GET_missing fs cwd st request uri).
  - unfold DirListing.__init__. fold path.
    destruct (os.path_exists fs path); cbn [negb]; split.
    + intros _. eexists. split; reflexivity.
    + reflexivity.
    + discriminate.
    + intros (dl & H & _). discriminate.
  - intros dl Hdl. pose proof (init_dir_path fs cwd url_path dl Hdl) as Hdir.
    fold path in Hdir.
    destruct (os.listdir fs path) as [files|e] eqn:Hls.
    + rewrite <- Hdir in Hls. rewrite (listing_page fs cwd dl files Hls).
      rewrite Hdir. unfold listing. f_equal. f_equal. f_equal.
      unfold DirListing.__init__ in Hdl.
      destruct (negb (os.path_exists fs _)); [discriminate|].
      injection Hdl as <-.
      cbn [DirListing.is_root_dir DirListing.parent_dir].
      unfold Spec.parent_lines, Spec.resolve.
      now destruct (String.eqb url_path "").
    + unfold DirListing.get_hyperlinked_dir_listing. rewrite Hdir, Hls.
      reflexivity.
  - intros files Hfs.
    rewrite (handle_GET_run fs cwd st request uri Hst Huri). fold url_path.
    destruct (init_listing fs cwd url_path files Hfs) as (dl & -> & ->).
    fold path. fold (listing files). unfold Py.encode.
    destruct (Py.utf8_valid (listing files)); reflexivity.
Qed.

End Confinement.

Lemma resolved_path_is_root_then_url_witness :
  Spec.getcwd_form Demo.cwd = true
  /\ DirListing.__url_path_to_dir_path Demo.cwd (Py.strip "/.." "/")
     = "/srv/www/.."
  /\ Py.startswith "/srv/www/.." Demo.cwd = true
  /\ Demo.fs "/srv/www/.." = Some (os.Directory ["www"; "secret.txt"])
  /\ run (HTTPServer.handle_GET Demo.fs Demo.cwd (Demo.get "/.."))
         HTTPServer.initial_store
     = Ok ("HTTP/1.1 200 OK" +:+ CRLF
             +:+ "Server: CrudeServer" +:+ CRLF
             +:+ "Content-Type: text/html" +:+ CRLF
             +:+ CRLF
             +:+ "<html><body>"
             +:+ "<a href=" +:+ DQUOTE +:+ "/" +:+ DQUOTE
             +:+ ">[parent directory]</a><br>"
             +:+ "<a href=" +:+ DQUOTE +:+ "/../www" +:+ DQUOTE
             +:+ ">www/</a><br>"
             +:+ "secret.txt<br>"
             +:+ "</body></html>").
Proof.
  split; [reflexivity|].
  destruct (resolved_path_is_root_then_url Demo.fs Demo.cwd
              HTTPServer.initial_store (Demo.get "/..") "/.."
              eq_refl eq_refl eq_refl)
    as (Hpath & Hprefix & _ & _ & _ & _ & H200).
  split; [exact Hpath|]. split; [exact Hprefix|]. split; [reflexivity|].
  exact (H200 ["www"; "secret.txt"] eq_refl).
Defined.
